(** * build_plugin.py: the plugin build orchestrator

    A shallow embedding of [src/build_plugin.py] (class [PluginBuilder] and
    [main]) and the properties of its specification.

    The script is sequential glue around external commands, so the embedding
    is a state-and-exception monad over

    - the part of the file system the builder looks at (its project
      directory, [package.json] and the listing of [output/]),
    - the behaviour of external processes, an arbitrary function [spawn] of
      the command line and of the current world,
    - a trace of everything the script asks the operating system to do
      (processes started, files unlinked or renamed), and
    - the lines printed on the console. *)

From Stdlib Require Import List String Ascii ZArith Bool Arith Lia DecimalString.
Import ListNotations.

Local Open Scope string_scope.
Local Open Scope list_scope.

(** ** Strings and paths *)

(** [str.endswith]: this is what the glob pattern ["*" ++ suffix] decides on a
    POSIX system ([fnmatch] compiles it to [.*suffix] anchored at both ends,
    and [pathlib] does not hide names that begin with a dot). *)
Definition endswith (s suffix : string) : bool :=
  let n := String.length s in
  let k := String.length suffix in
  (k <=? n)%nat && String.eqb (substring (n - k) k s) suffix.

(** ['c' * n] *)
Fixpoint str_repeat (c : string) (n : nat) : string :=
  match n with
  | O => ""
  | S n' => c ++ str_repeat c n'
  end.

Definition is_space (c : ascii) : bool :=
  let n := nat_of_ascii c in
  ((9 <=? n)%nat && (n <=? 13)%nat) || (n =? 32)%nat.

Fixpoint lstrip (s : string) : string :=
  match s with
  | String c s' => if is_space c then lstrip s' else s
  | EmptyString => EmptyString
  end.

Fixpoint rstrip (s : string) : string :=
  match s with
  | String c s' =>
      match rstrip s' with
      | EmptyString => if is_space c then EmptyString else String c EmptyString
      | r => String c r
      end
  | EmptyString => EmptyString
  end.

(** [str.strip] (on ASCII white space) *)
Definition strip (s : string) : string := rstrip (lstrip s).

(** [str(n)] for an integer *)
Definition str_of_Z (z : Z) : string := NilZero.string_of_int (Z.to_int z).

(** A [pathlib.Path] is compared by its parts. *)
Definition Path := list string.

Definition joinpath (p : Path) (n : string) : Path := p ++ [n].
Notation "p // n" := (joinpath p n) (at level 40, left associativity).

(** [Path.name] *)
Definition Path_name (p : Path) : string := last p "".

(** [str(path)] *)
Definition Path_str (p : Path) : string := String.concat "/" p.

Fixpoint Path_eqb (p q : Path) : bool :=
  match p, q with
  | [], [] => true
  | a :: p', b :: q' => String.eqb a b && Path_eqb p' q'
  | _, _ => false
  end.

(** ** The file system seen from the builder *)

(** An entry of [output/]: its name and what it holds. *)
Record entry := mkEntry { name : string; content : string }.

(** The three places the builder derives from its project directory.  The
    listing of [output/] is in the order in which the directory is iterated
    ([None]: there is no such directory); its entries are the files the
    build tool has left there. *)
Record filesystem := mkFs {
  project_dir_exists : bool;
  package_json_exists : bool;
  output : option (list entry)
}.

Definition has_name (n : string) (e : entry) : bool := String.eqb (name e) n.

(** [(output_dir / n).exists()] *)
Definition entry_exists (n : string) (d : list entry) : bool :=
  existsb (has_name n) d.

(** what [os.unlink] leaves of the listing *)
Definition remove_entry (n : string) (d : list entry) : list entry :=
  filter (fun e => negb (has_name n e)) d.

(** what [os.rename] leaves of the listing (the destination is free when the
    builder calls it) *)
Definition rename_entry (old new : string) (d : list entry) : list entry :=
  map (fun e => if has_name old e then mkEntry new (content e) else e) d.

(** the content stored under a name *)
Definition lookup (n : string) (d : list entry) : option string :=
  option_map content (find (has_name n) d).

(** ** External processes *)

(** The exceptions [subprocess.run] raises, with their [str()]. *)
Inductive exn :=
| FileNotFoundError (text : string)   (* the executable is absent *)
| TimeoutExpired (text : string)      (* subprocess.TimeoutExpired *)
| OtherException (text : string).     (* any other subclass of Exception *)

Definition exn_str (e : exn) : string :=
  match e with
  | FileNotFoundError t | TimeoutExpired t | OtherException t => t
  end.

(** The arguments of one [subprocess.run] call. *)
Record invocation := mkInv {
  argv : list string;
  cwd : option Path;          (* None: the caller's working directory *)
  capture_output : bool;
  timeout : Z                 (* seconds *)
}.

(** What [subprocess.run] gives back: a [CompletedProcess] or an exception. *)
Inductive outcome :=
| Exited (returncode : Z) (stdout : string)
| Raised (e : exn).

Definition succeeded (o : outcome) : bool :=
  match o with
  | Exited rc _ => (rc =? 0)%Z
  | Raised _ => false
  end.

(** What the script asks of the operating system. *)
Inductive event :=
| Run (i : invocation) (o : outcome)
| Unlink (p : Path)
| Rename (src dst : Path).

(** ** The builder *)

(** The attributes [__init__] derives once and never changes. *)
Record builder := mkBuilder {
  project_dir : Path;
  package_json : Path;
  output_dir : Path
}.

(** [subprocess.CompletedProcess] *)
Record completed := mkCompleted { returncode : Z; stdout : string }.

(** The result of a Python call: a value, or an exception on its way up. *)
Inductive result (A : Type) :=
| Ok (a : A)
| Raise (e : exn).
Arguments Ok {A} a.
Arguments Raise {A} e.

(** The state of a run: the world ([Ext] is whatever external processes
    depend on and change besides the file system), what has happened so far,
    and the one attribute of the builder that changes. *)
Record state (Ext : Type) := mkState {
  ext : Ext;
  fs : filesystem;
  trace : list event;          (* oldest first *)
  console : list string;       (* oldest first *)
  crx_file : option Path       (* the attribute self.crx_file *)
}.
Arguments mkState {Ext} ext fs trace console crx_file.
Arguments ext {Ext} s.
Arguments fs {Ext} s.
Arguments trace {Ext} s.
Arguments console {Ext} s.
Arguments crx_file {Ext} s.

Definition nl : string := String (ascii_of_nat 10) EmptyString.

Definition TARGET : string := "TLS-Social-Media.zip".

(** ** Stages, calls and what a run may look like *)

Inductive stage := Install | Build | Package.

(** The command lines of [build]: the primary one is [pnpm]'s, the fallback
    [npm]'s. *)
Definition primary (st : stage) : list string :=
  match st with
  | Install => ["pnpm"; "install"]
  | Build => ["pnpm"; "build"]
  | Package => ["pnpm"; "zip"]
  end.

Definition fallback (st : stage) : list string :=
  match st with
  | Install => ["npm"; "install"]
  | Build => ["npm"; "run"; "build"]
  | Package => ["npm"; "run"; "zip"]
  end.

Definition next_stage (st : stage) : option stage :=
  match st with
  | Install => Some Build
  | Build => Some Package
  | Package => None
  end.

Definition stage_index (st : stage) : nat :=
  match st with
  | Install => 0
  | Build => 1
  | Package => 2
  end.

Definition pnpm_version : list string := ["pnpm"; "--version"].
Definition npm_version : list string := ["npm"; "--version"].

(** A call is a command line and whether it succeeded: exit status 0.  A
    non-zero status, a timeout, an absent executable and any other exception
    all count as [false]. *)
Definition call := (list string * bool)%type.

(** The external commands of a trace, oldest first. *)
Fixpoint calls (t : list event) : list call :=
  match t with
  | [] => []
  | Run i o :: t' => (argv i, succeeded o) :: calls t'
  | _ :: t' => calls t'
  end.

(** The stage a command line belongs to. *)
Definition is_stage_command (a : list string) (st : stage) : Prop :=
  a = primary st \/ a = fallback st.

Definition stage_succeeded (st : stage) (q : list call) : Prop :=
  In (primary st, true) q \/ In (fallback st, true) q.

Definition query_succeeded (q : list call) : Prop :=
  In (pnpm_version, true) q \/ In (npm_version, true) q.

(** Fallback rule: a failed primary command is followed at once by the
    fallback of its stage; a successful fallback is followed by the primary
    command of the next stage, or ends the commands of a successful run when
    there is no next stage; a failed fallback is the last command and the
    run reports failure. *)
Definition fallback_rule (q : list call) (r : result bool) : Prop :=
  forall pre post st,
    q = pre ++ (primary st, false) :: post ->
    exists ok post',
      post = (fallback st, ok) :: post' /\
      (ok = false -> post' = [] /\ r = Ok false) /\
      (ok = true ->
       match next_stage st with
       | Some st' => exists ok' post'', post' = (primary st', ok') :: post''
       | None => post' = [] /\ r = Ok true
       end).

(** Stage order: after a command of one stage no command of an earlier
    stage follows. *)
Definition in_stage_order (q : list call) : Prop :=
  forall pre a ok post st,
    q = pre ++ (a, ok) :: post ->
    is_stage_command a st ->
    forall a' ok' st',
      In (a', ok') post -> is_stage_command a' st' ->
      stage_index st <= stage_index st'.

(** Gating: before any command of a stage, a version query has succeeded and
    so has a command of every earlier stage. *)
Definition gated (q : list call) : Prop :=
  forall pre a ok post st,
    q = pre ++ (a, ok) :: post ->
    is_stage_command a st ->
    query_succeeded pre /\
    forall st', stage_index st' < stage_index st -> stage_succeeded st' pre.

(** Fail fast: a stage whose two commands failed is the end of the run. *)
Definition stops_at_failure (q : list call) (r : result bool) : Prop :=
  forall pre post st,
    q = pre ++ (primary st, false) :: (fallback st, false) :: post ->
    post = [] /\ r = Ok false.

(** The whole pipeline has succeeded: a version query has, and so has a
    command of each stage. *)
Definition pipeline_succeeded (q : list call) : Prop :=
  query_succeeded q /\ forall st, stage_succeeded st q.

(** The calls of one stage and whether the run goes on. *)
Inductive stage_calls (st : stage) : list call -> bool -> Prop :=
| primary_succeeds : stage_calls st [(primary st, true)] true
| primary_fails ok : stage_calls st [(primary st, false); (fallback st, ok)] ok.

(** The calls of a sequence of stages. *)
Inductive stages_calls : list stage -> list call -> bool -> Prop :=
| stages_done : stages_calls [] [] true
| stage_aborts st rest q :
    stage_calls st q false -> stages_calls (st :: rest) q false
| stage_passes st rest q q' ok :
    stage_calls st q true -> stages_calls rest q' ok ->
    stages_calls (st :: rest) (q ++ q') ok.

(** The calls of the precondition check and its result. *)
Inductive prereq_calls : list call -> result bool -> Prop :=
| no_query : prereq_calls [] (Ok false)
| pnpm_answers : prereq_calls [(pnpm_version, true)] (Ok true)
| pnpm_raises e : prereq_calls [(pnpm_version, false)] (Raise e)
| npm_decides ok : prereq_calls [(pnpm_version, false); (npm_version, ok)] (Ok ok)
| npm_raises e :
    prereq_calls [(pnpm_version, false); (npm_version, false)] (Raise e).

(** The calls of a whole run and its result. *)
Inductive build_calls : list call -> result bool -> Prop :=
| prereq_stops q r :
    prereq_calls q r -> r <> Ok true -> build_calls q r
| prereq_passes q q' ok :
    prereq_calls q (Ok true) ->
    stages_calls [Install; Build; Package] q' ok ->
    build_calls (q ++ q') (Ok ok).

(** ** Some machines to run the builder on

    External state is [unit] in all of them. *)

Definition world0 : Type := (unit * filesystem)%type.

Definition argv_eqb : list string -> list string -> bool := Path_eqb.

(** Every tool is installed and every command succeeds; [pnpm zip] leaves an
    archive and an unpacked extension in [output/]. *)
Definition spawn_healthy (i : invocation) (w : world0) : outcome * world0 :=
  if argv_eqb (argv i) ["pnpm"; "zip"] then
    (Exited 0 "",
     (tt, mkFs true true
            (Some [mkEntry "chrome-mv3" ""; mkEntry "copilot-1.0.0-chrome.zip" "PK"])))
  else (Exited 0 "9.12.0", w).

(** Every command succeeds and none touches the file system. *)
Definition spawn_quiet (i : invocation) (w : world0) : outcome * world0 :=
  (Exited 0 "10.2.4", w).

(** [pnpm] is not installed, [npm] works. *)
Definition spawn_npm_only (i : invocation) (w : world0) : outcome * world0 :=
  match argv i with
  | "pnpm" :: _ =>
      (Raised (FileNotFoundError "[Errno 2] No such file or directory: 'pnpm'"), w)
  | _ => (Exited 0 "10.2.4", w)
  end.

(** Neither [pnpm] nor [npm] is installed. *)
Definition spawn_no_tools (i : invocation) (w : world0) : outcome * world0 :=
  (Raised (FileNotFoundError "[Errno 2] No such file or directory"), w).

(** Both tools answer the version query; the install commands fail. *)
Definition spawn_install_fails (i : invocation) (w : world0) : outcome * world0 :=
  match argv i with
  | [_; "--version"] => (Exited 0 "9.12.0", w)
  | _ => (Exited 1 "", w)
  end.

(** [pnpm --version] hangs for more than five seconds; [npm] works. *)
Definition spawn_pnpm_hangs (i : invocation) (w : world0) : outcome * world0 :=
  if argv_eqb (argv i) ["pnpm"; "--version"] then
    (Raised (TimeoutExpired "Command '['pnpm', '--version']' timed out after 5 seconds"), w)
  else (Exited 0 "10.2.4", w).

Definition work_dir : Path := ["/"; "work"; "plugin"].

Definition resolve_in_work (p : string) : Path := ["/"; "work"; p].

(** A state in which nothing has happened yet. *)
Definition fresh (f : filesystem) : state unit := mkState tt f [] [] None.

Definition fs_project : filesystem := mkFs true true None.
Definition fs_no_manifest : filesystem := mkFs true false None.
Definition fs_no_project : filesystem := mkFs false false None.

Definition fs_with_output (d : list entry) : filesystem := mkFs true true (Some d).

Definition dir_one_zip : list entry :=
  [mkEntry "chrome-mv3" ""; mkEntry "foo.zip" "PK-new"; mkEntry "copilot.crx" "Cr24"].

Definition dir_stale_target : list entry :=
  [mkEntry "foo.zip" "PK-new"; mkEntry "TLS-Social-Media.zip" "PK-old";
   mkEntry "bar.zip" "PK-bar"; mkEntry "copilot.crx" "Cr24"].

Definition dir_target_first : list entry :=
  [mkEntry "TLS-Social-Media.zip" "PK-old"; mkEntry "foo.zip" "PK-new"].

Definition dir_no_artifacts : list entry :=
  [mkEntry "chrome-mv3" ""].

Definition project : builder :=
  mkBuilder work_dir (work_dir // "package.json") (work_dir // "output").

Set Default Proof Using "Type".

Section Orchestrator.

(** Whatever else external processes depend on and change. *)
Variable Ext : Type.

(** The behaviour of [subprocess.run]: any function of the call and of the
    world it runs in. *)
Variable spawn : invocation -> Ext * filesystem -> outcome * (Ext * filesystem).

(** [Path.cwd()] and [Path(p).resolve()] *)
Variable getcwd : Path.
Variable resolve : string -> Path.

Local Abbreviation state := (state Ext).

Definition M (A : Type) : Type := state -> result A * state.

Definition ret {A} (a : A) : M A := fun s => (Ok a, s).

Definition bind {A B} (m : M A) (k : A -> M B) : M B :=
  fun s =>
    match m s with
    | (Ok a, s') => k a s'
    | (Raise e, s') => (Raise e, s')
    end.

Notation "x <- m ;; k" := (bind m (fun x => k))
  (at level 61, m at next level, right associativity).
Notation "m ;; k" := (bind m (fun _ => k))
  (at level 61, right associativity).

(** [try: body except ...: handler]; a handler of [None] lets the exception
    pass. *)
Definition try_except {A} (body : M A) (handler : exn -> option (M A)) : M A :=
  fun s =>
    match body s with
    | (Ok a, s') => (Ok a, s')
    | (Raise e, s') =>
        match handler e with
        | Some h => h s'
        | None => (Raise e, s')
        end
    end.

Definition print (line : string) : M unit :=
  fun s => (Ok tt, mkState (ext s) (fs s) (trace s) (console s ++ [line]) (crx_file s)).

Definition log (e : event) (s : state) : state :=
  mkState (ext s) (fs s) (trace s ++ [e]) (console s) (crx_file s).

Definition set_output (d : list entry) (s : state) : state :=
  mkState (ext s)
          (mkFs (project_dir_exists (fs s)) (package_json_exists (fs s)) (Some d))
          (trace s) (console s) (crx_file s).

Definition set_crx_file (p : option Path) : M unit :=
  fun s => (Ok tt, mkState (ext s) (fs s) (trace s) (console s) p).

(** [subprocess.run(argv, cwd=..., capture_output=..., timeout=...)] *)
Definition subprocess_run (args : list string) (dir : option Path)
    (capture : bool) (limit : Z) : M completed :=
  fun s =>
    let i := mkInv args dir capture limit in
    let '(o, (x, f)) := spawn i (ext s, fs s) in
    let s' := mkState x f (trace s ++ [Run i o]) (console s) (crx_file s) in
    match o with
    | Exited rc out => (Ok (mkCompleted rc out), s')
    | Raised e => (Raise e, s')
    end.

(** [self.project_dir.exists()], [self.package_json.exists()],
    [self.output_dir.exists()] *)
Definition project_dir_exists_ : M bool :=
  fun s => (Ok (project_dir_exists (fs s)), s).

Definition package_json_exists_ : M bool :=
  fun s => (Ok (package_json_exists (fs s)), s).

Definition output_dir_exists_ : M bool :=
  fun s => (Ok (match output (fs s) with Some _ => true | None => false end), s).

(** [self.output_dir.glob("*" + suffix)]: the matching entries as paths, in
    the order of the listing. *)
Definition glob_suffix (dir : Path) (suffix : string) (d : list entry) : list Path :=
  map (fun e => dir // name e) (filter (fun e => endswith (name e) suffix) d).

Definition output_glob (self : builder) (suffix : string) : M (list Path) :=
  fun s =>
    (Ok (match output (fs s) with
         | Some d => glob_suffix (output_dir self) suffix d
         | None => []
         end), s).

(** [p.exists()], [p.unlink()] and [src.rename(dst)] for paths directly
    under [output/] *)
Definition output_exists (p : Path) : M bool :=
  fun s =>
    (Ok (match output (fs s) with
         | Some d => entry_exists (Path_name p) d
         | None => false
         end), s).

Definition output_unlink (p : Path) : M unit :=
  fun s =>
    (Ok tt,
     log (Unlink p)
       (match output (fs s) with
        | Some d => set_output (remove_entry (Path_name p) d) s
        | None => s
        end)).

Definition output_rename (src dst : Path) : M unit :=
  fun s =>
    (Ok tt,
     log (Rename src dst)
       (match output (fs s) with
        | Some d => set_output (rename_entry (Path_name src) (Path_name dst) d) s
        | None => s
        end)).

(** [PluginBuilder.__init__] *)
Definition PluginBuilder (dir : option string) : M builder :=
  let p := match dir with
           | None => getcwd
           | Some d => resolve d
           end in
  set_crx_file None ;;
  ret (mkBuilder p (p // "package.json") (p // "output")).

(** [PluginBuilder.check_prerequisites].  Inside the two [try] blocks
    [Some v] stands for [return v] and [None] for falling out of the block;
    only [FileNotFoundError] is handled there. *)
Definition check_prerequisites (self : builder) : M bool :=
  print "🔍 检查前置条件..." ;;
  e1 <- project_dir_exists_ ;;
  if negb e1 then
    print ("❌ 项目目录不存在: " ++ Path_str (project_dir self)) ;;
    ret false
  else
  e2 <- package_json_exists_ ;;
  if negb e2 then
    print "❌ 找不到 package.json，请确保在项目根目录" ;;
    ret false
  else
  r1 <- try_except
          (res <- subprocess_run ["pnpm"; "--version"] None true 5 ;;
           if (returncode res =? 0)%Z then
             print ("✅ pnpm 已安装: " ++ strip (stdout res)) ;;
             ret (Some true)
           else ret None)
          (fun e => match e with
                    | FileNotFoundError _ =>
                        Some (print "⚠️  pnpm 未找到，尝试使用 npm..." ;; ret None)
                    | _ => None
                    end) ;;
  match r1 with
  | Some v => ret v
  | None =>
  r2 <- try_except
          (res <- subprocess_run ["npm"; "--version"] None true 5 ;;
           if (returncode res =? 0)%Z then
             print ("✅ npm 已安装: " ++ strip (stdout res)) ;;
             ret (Some true)
           else ret None)
          (fun e => match e with
                    | FileNotFoundError _ => Some (ret None)
                    | _ => None
                    end) ;;
  match r2 with
  | Some v => ret v
  | None =>
      print "❌ 没有找到 pnpm 或 npm，请先安装" ;;
      ret false
  end
  end.

(** [PluginBuilder.run_command] *)
Definition run_command (self : builder) (cmd : list string) (description : string)
  : M bool :=
  print (nl ++ str_repeat "=" 60) ;;
  print ("📦 " ++ description) ;;
  print (str_repeat "=" 60) ;;
  print ("执行命令: " ++ String.concat " " cmd ++ nl) ;;
  try_except
    (res <- subprocess_run cmd (Some (project_dir self)) false 300 ;;
     if (returncode res =? 0)%Z then
       print (nl ++ "✅ " ++ description ++ " 成功") ;;
       ret true
     else
       print (nl ++ "❌ " ++ description ++ " 失败 (exit code: "
                 ++ str_of_Z (returncode res) ++ ")") ;;
       ret false)
    (fun e => match e with
              | TimeoutExpired _ =>
                  Some (print (nl ++ "❌ " ++ description ++ " 超时（>5分钟）") ;;
                        ret false)
              | _ =>
                  Some (print (nl ++ "❌ " ++ description ++ " 出错: " ++ exn_str e) ;;
                        ret false)
              end).

(** [PluginBuilder.find_crx_file] *)
Definition find_crx_file (self : builder) : M (option Path) :=
  e <- output_dir_exists_ ;;
  if negb e then ret None else
  found <- output_glob self ".crx" ;;
  match found with
  | crx :: _ => set_crx_file (Some crx) ;; ret (Some crx)
  | [] => ret None
  end.

(** [PluginBuilder.rename_zip_file] *)
Definition rename_zip_file (self : builder) : M (option Path) :=
  e <- output_dir_exists_ ;;
  if negb e then ret None else
  zip_files <- output_glob self ".zip" ;;
  match zip_files with
  | [] => ret None
  | old_zip :: _ =>
      let new_zip := output_dir self // TARGET in
      if Path_eqb old_zip new_zip then ret (Some new_zip) else
      e' <- output_exists new_zip ;;
      (if e' then output_unlink new_zip else ret tt) ;;
      output_rename old_zip new_zip ;;
      ret (Some new_zip)
  end.

(** The three stages of [build] (source lines 149-152, 156-158 and 162-164):
    the primary command and, when it fails, the fallback.  The value says
    whether the run goes on; [false] is the [return False] of the source. *)
Definition install_stage (self : builder) : M bool :=
  ok <- run_command self ["pnpm"; "install"] "安装依赖" ;;
  if negb ok then
    print "💡 提示: 如果 pnpm 不可用，尝试使用 npm install" ;;
    ok' <- run_command self ["npm"; "install"] "使用 npm 安装依赖" ;;
    if negb ok' then ret false else ret true
  else ret true.

Definition build_stage (self : builder) : M bool :=
  ok <- run_command self ["pnpm"; "build"] "构建项目" ;;
  if negb ok then
    ok' <- run_command self ["npm"; "run"; "build"] "使用 npm 构建项目" ;;
    if negb ok' then ret false else ret true
  else ret true.

Definition package_stage (self : builder) : M bool :=
  ok <- run_command self ["pnpm"; "zip"] "打包为 CRX" ;;
  if negb ok then
    ok' <- run_command self ["npm"; "run"; "zip"] "使用 npm 打包" ;;
    if negb ok' then ret false else ret true
  else ret true.

(** Steps 5 to 7 of [build] (source lines 166-211): rename the archive, look
    for the package file, print the summary. *)
Definition report (self : builder) : M bool :=
  zip_file <- rename_zip_file self ;;
  crx <- find_crx_file self ;;
  print (nl ++ str_repeat "=" 60) ;;
  print "✅ 构建完成！" ;;
  print (str_repeat "=" 60) ;;
  print (nl ++ "📁 输出目录: " ++ Path_str (output_dir self)) ;;
  print "   - output/chrome-mv3/        (未打包的扩展目录)" ;;
  match zip_file with
  | Some z =>
      print ("   - " ++ Path_name z ++ "      (ZIP 压缩包)") ;;
      print (nl ++ "💾 ZIP 文件路径: " ++ Path_str z)
  | None => ret tt
  end ;;
  match crx with
  | Some c =>
      print ("   - " ++ Path_name c ++ "           (可安装的 CRX 文件)") ;;
      print (nl ++ "💾 CRX 文件路径: " ++ Path_str c)
  | None => ret tt
  end ;;
  print (nl ++ str_repeat "=" 60) ;;
  print "📖 使用方式:" ;;
  print (str_repeat "=" 60) ;;
  print (nl ++ "方式 1️⃣: 直接加载文件夹") ;;
  print "  1. 打开 chrome://extensions/" ;;
  print "  2. 开启 '开发者模式'" ;;
  print "  3. 点击 '加载未打包的扩展程序'" ;;
  print ("  4. 选择: " ++ Path_str (output_dir self) ++ "/chrome-mv3") ;;
  match crx with
  | Some _ =>
      print (nl ++ "方式 2️⃣: 安装 CRX 文件") ;;
      print "  1. 打开 chrome://extensions/" ;;
      print "  2. 拖拽 CRX 文件到页面中" ;;
      print "  3. 或双击 CRX 文件"
  | None => ret tt
  end ;;
  print (nl ++ "方式 3️⃣: 分享给他人") ;;
  match zip_file with
  | Some z => print ("  - 分享 " ++ Path_name z ++ " 文件")
  | None => ret tt
  end ;;
  print ("  - 或分享 " ++ Path_str (output_dir self) ++ "/chrome-mv3 文件夹") ;;
  match crx with
  | Some c => print ("  - 或分享 " ++ Path_name c ++ " 文件")
  | None => ret tt
  end ;;
  print (nl ++ str_repeat "🎉" 30) ;;
  ret true.

(** [PluginBuilder.build] *)
Definition build (self : builder) : M bool :=
  print (nl ++ str_repeat "🚀" 30) ;;
  print "开始构建社交媒体 Copilot 插件" ;;
  print (str_repeat "🚀" 30) ;;
  ok <- check_prerequisites self ;;
  if negb ok then ret false else
  print nl ;;
  go1 <- install_stage self ;;
  if negb go1 then ret false else
  print nl ;;
  go2 <- build_stage self ;;
  if negb go2 then ret false else
  print nl ;;
  go3 <- package_stage self ;;
  if negb go3 then ret false else
  report self.

(** [main], with [sys.argv] as its argument and the exit status of the
    process as its value.  [sys.exit(0 if success else 1)] ends the normal
    path; an exception nobody handles ends the interpreter with a traceback
    and status 1. *)
Definition main (sys_argv : list string) (s : state) : Z * state :=
  let dir := match sys_argv with
             | _ :: a :: _ => Some a
             | _ => None
             end in
  match (self <- PluginBuilder dir ;; build self) s with
  | (Ok success, s') => ((if success then 0 else 1)%Z, s')
  | (Raise _, s') => (1%Z, s')
  end.

(** ** Names for parts of a run *)

(** The invocation [run_command] makes for a command line. *)
Definition stage_inv (self : builder) (cmd : list string) : invocation :=
  mkInv cmd (Some (project_dir self)) false 300.

(** The invocation of a version query. *)
Definition query_inv (cmd : list string) : invocation :=
  mkInv cmd None true 5.

Definition run_stage (self : builder) (st : stage) : M bool :=
  match st with
  | Install => install_stage self
  | Build => build_stage self
  | Package => package_stage self
  end.

(** [build] up to its step 4 (source lines 139-164): the precondition check
    and the three stages. *)
Definition pipeline (self : builder) : M bool :=
  print (nl ++ str_repeat "🚀" 30) ;;
  print "开始构建社交媒体 Copilot 插件" ;;
  print (str_repeat "🚀" 30) ;;
  ok <- check_prerequisites self ;;
  if negb ok then ret false else
  print nl ;;
  go1 <- install_stage self ;;
  if negb go1 then ret false else
  print nl ;;
  go2 <- build_stage self ;;
  if negb go2 then ret false else
  print nl ;;
  go3 <- package_stage self ;;
  if negb go3 then ret false else
  ret true.

(** The builder [main] makes and the state it starts [build] in. *)
Definition main_builder (sys_argv : list string) : builder :=
  let p := match sys_argv with
           | _ :: a :: _ => resolve a
           | _ => getcwd
           end in
  mkBuilder p (p // "package.json") (p // "output").

Definition main_start (s : state) : state :=
  mkState (ext s) (fs s) (trace s) (console s) None.

(** Every process the builder starts is a version query, without a working
    directory, or a stage command, run in the project directory. *)
Definition well_formed (self : builder) (e : event) : Prop :=
  match e with
  | Run i _ =>
      (i = query_inv (argv i) /\ (argv i = pnpm_version \/ argv i = npm_version)) \/
      (i = stage_inv self (argv i) /\ exists st, is_stage_command (argv i) st)
  | _ => True
  end.

(** All stage commands of a trace run in the project directory. *)
Definition in_project_dir (self : builder) (t : list event) : Prop :=
  forall i o st,
    In (Run i o) t -> is_stage_command (argv i) st ->
    cwd i = Some (project_dir self) /\ timeout i = 300%Z.

(** The first archive of a listing: the head of [glob("*.zip")]. *)
Definition first_archive (d : list entry) : option entry :=
  find (fun e => endswith (name e) ".zip") d.

(** The names [rename_zip_file] may touch: the target and the first archive. *)
Definition touched (d : list entry) (n : string) : Prop :=
  n = TARGET \/ exists e, first_archive d = Some e /\ n = name e.

(** The entries of [d] under other names than those two, in their order. *)
Definition others (d0 d : list entry) : list entry :=
  filter (fun x =>
            negb (has_name TARGET x) &&
            match first_archive d0 with
            | Some e => negb (has_name (name e) x)
            | None => true
            end) d.

(** [P pre a post] at every position of a list. *)
Fixpoint each_split {A} (P : list A -> A -> list A -> Prop) (pre q : list A) : Prop :=
  match q with
  | [] => True
  | a :: post => P pre a post /\ each_split P (pre ++ [a]) post
  end.

(** [m] returns normally and changes nothing but the console, to which it
    appends. *)
Definition only_prints {A} (m : M A) : Prop :=
  forall s, exists a lines,
    m s = (Ok a, mkState (ext s) (fs s) (trace s) (console s ++ lines) (crx_file s)).

(** ** Paths *)

Lemma Path_eqb_refl (p : Path) : Path_eqb p p = true.
Proof.
  induction p as [|a p IH]; cbn; [reflexivity|].
  now rewrite String.eqb_refl, IH.
Qed.

Lemma Path_eqb_eq (p q : Path) : Path_eqb p q = true <-> p = q.
Proof.
  split.
  - revert q; induction p as [|a p IH]; intros [|b q] H; cbn in H;
      try discriminate; [reflexivity|].
    apply andb_true_iff in H as [Hab Hpq].
    apply String.eqb_eq in Hab. apply IH in Hpq. now subst.
  - intros ->. apply Path_eqb_refl.
Qed.

Lemma Path_eqb_join (d : Path) (a b : string) :
  Path_eqb (d // a) (d // b) = String.eqb a b.
Proof.
  unfold joinpath. induction d as [|x d IH]; cbn.
  - now rewrite andb_true_r.
  - now rewrite String.eqb_refl, IH.
Qed.

Lemma Path_name_join (d : Path) (a : string) : Path_name (d // a) = a.
Proof. unfold Path_name, joinpath. apply last_last. Qed.

(** ** [main] is [build] on a fresh builder *)

Lemma main_unfold (sys_argv : list string) (s : state) :
  main sys_argv s =
  match build (main_builder sys_argv) (main_start s) with
  | (Ok success, s') => ((if success then 0 else 1)%Z, s')
  | (Raise _, s') => (1%Z, s')
  end.
Proof.
  unfold main, main_builder, main_start, PluginBuilder, bind, set_crx_file, ret.
  destruct sys_argv as [|a0 [|a1 rest]]; reflexivity.
Qed.

(** ** A missing manifest *)

(** C1. When the project directory exists and [package.json] does not, the
    precondition check and [build] return [False], [main] exits with status
    1, the diagnostic about [package.json] is the last line printed, and no
    event at all (no version query, no install, build or package command)
    is added to the trace; the file system is as it was. *)
Theorem missing_manifest_aborts (sys_argv : list string) (s : state) :
  project_dir_exists (fs s) = true ->
  package_json_exists (fs s) = false ->
  let self := main_builder sys_argv in
  let s0 := main_start s in
  fst (check_prerequisites self s0) = Ok false /\
  fst (build self s0) = Ok false /\
  fst (main sys_argv s) = 1%Z /\
  trace (snd (main sys_argv s)) = trace s /\
  fs (snd (main sys_argv s)) = fs s /\
  ext (snd (main sys_argv s)) = ext s /\
  last (console (snd (main sys_argv s))) "" =
    "❌ 找不到 package.json，请确保在项目根目录".
Proof.
  intros Hd Hm self s0. rewrite main_unfold. fold self s0.
  unfold build, check_prerequisites, bind, print, ret,
    project_dir_exists_, package_json_exists_.
  cbn. rewrite Hd. cbn. rewrite Hm. cbn.
  repeat split; try reflexivity.
  now rewrite last_last.
Qed.

(** ** Listings *)

Lemma glob_suffix_first (dir : Path) (suffix : string) (d : list entry) :
  glob_suffix dir suffix d =
  match find (fun e => endswith (name e) suffix) d with
  | Some e => (dir // name e) :: tl (glob_suffix dir suffix d)
  | None => []
  end.
Proof.
  unfold glob_suffix. induction d as [|x d IH]; cbn; [reflexivity|].
  destruct (endswith (name x) suffix); cbn; [reflexivity|exact IH].
Qed.

Lemma find_none_iff (suffix : string) (d : list entry) :
  find (fun e => endswith (name e) suffix) d = None <->
  forall e, In e d -> endswith (name e) suffix = false.
Proof.
  split.
  - intros H e He. exact (find_none _ _ H e He).
  - intros H. induction d as [|x d IH]; cbn; [reflexivity|].
    rewrite (H x (or_introl eq_refl)). apply IH.
    intros e He. apply H. now right.
Qed.

Lemma entry_exists_false (n : string) (d : list entry) :
  entry_exists n d = false -> remove_entry n d = d.
Proof.
  unfold entry_exists, remove_entry. induction d as [|x d IH]; cbn; [reflexivity|].
  intros H. apply orb_false_iff in H as [Hx Hd].
  rewrite Hx. cbn. now rewrite IH.
Qed.

Lemma lookup_remove_entry (n m : string) (d : list entry) :
  lookup m (remove_entry n d) = if String.eqb m n then None else lookup m d.
Proof.
  unfold lookup, remove_entry, has_name.
  induction d as [|x d IH]; cbn.
  - now destruct (String.eqb m n).
  - destruct (String.eqb (name x) n) eqn:Hxn; cbn.
    + rewrite IH. destruct (String.eqb m n) eqn:Hmn; [reflexivity|].
      apply String.eqb_eq in Hxn. rewrite Hxn.
      now rewrite String.eqb_sym, Hmn.
    + destruct (String.eqb (name x) m) eqn:Hxm; [|exact IH].
      apply String.eqb_eq in Hxm. rewrite <- Hxm, Hxn. reflexivity.
Qed.

Lemma lookup_rename_other (old new m : string) (d : list entry) :
  m <> old -> m <> new -> lookup m (rename_entry old new d) = lookup m d.
Proof.
  intros Ho Hn. unfold lookup, rename_entry, has_name.
  induction d as [|x d IH]; cbn; [reflexivity|].
  destruct (String.eqb (name x) old) eqn:Hxo; cbn.
  - apply String.eqb_eq in Hxo.
    assert (String.eqb new m = false) as -> by (apply String.eqb_neq; congruence).
    assert (String.eqb (name x) m = false) as -> by (apply String.eqb_neq; congruence).
    exact IH.
  - destruct (String.eqb (name x) m); [reflexivity|exact IH].
Qed.

Lemma lookup_rename_old (old new : string) (d : list entry) :
  old <> new -> lookup old (rename_entry old new d) = None.
Proof.
  intros Hne. unfold lookup, rename_entry, has_name.
  induction d as [|x d IH]; cbn; [reflexivity|].
  destruct (String.eqb (name x) old) eqn:Hxo; cbn.
  - assert (String.eqb new old = false) as -> by (apply String.eqb_neq; congruence).
    exact IH.
  - rewrite Hxo. exact IH.
Qed.

(** Renaming onto a free name moves the content of the first entry called
    [old]. *)
Lemma lookup_rename_new (old new : string) (d : list entry) :
  entry_exists new d = false ->
  lookup new (rename_entry old new d) = lookup old d.
Proof.
  unfold lookup, rename_entry, entry_exists, has_name.
  induction d as [|x d IH]; cbn; [reflexivity|].
  intros H. apply orb_false_iff in H as [Hx Hd].
  destruct (String.eqb (name x) old) eqn:Hxo; cbn.
  - now rewrite String.eqb_refl.
  - rewrite Hx. now apply IH.
Qed.

Lemma entry_exists_remove (n : string) (d : list entry) :
  entry_exists n (remove_entry n d) = false.
Proof.
  unfold entry_exists, remove_entry, has_name.
  induction d as [|x d IH]; cbn; [reflexivity|].
  destruct (String.eqb (name x) n) eqn:Hx; cbn; [exact IH|].
  now rewrite Hx, IH.
Qed.

(** The first entry with a given suffix is also the first entry of its
    name. *)
Lemma lookup_first (suffix : string) (d : list entry) (e : entry) :
  find (fun x => endswith (name x) suffix) d = Some e ->
  lookup (name e) d = Some (content e).
Proof.
  unfold lookup, has_name.
  induction d as [|x d IH]; cbn; [discriminate|].
  destruct (endswith (name x) suffix) eqn:Hx.
  - intros [= ->]. now rewrite String.eqb_refl.
  - intros H. destruct (String.eqb (name x) (name e)) eqn:Hxe.
    + apply String.eqb_eq in Hxe. apply find_some in H as [_ He].
      cbn in He. congruence.
    + now apply IH.
Qed.

Lemma In_names_remove (n m : string) (d : list entry) :
  In m (map name (remove_entry n d)) -> In m (map name d) /\ m <> n.
Proof.
  unfold remove_entry. intros H. apply in_map_iff in H as (x & Hx & Hin).
  apply filter_In in Hin as [Hin Hneg]. split.
  - apply in_map_iff. now exists x.
  - unfold has_name in Hneg. apply negb_true_iff, String.eqb_neq in Hneg. congruence.
Qed.

Lemma NoDup_remove_entry (n : string) (d : list entry) :
  NoDup (map name d) -> NoDup (map name (remove_entry n d)).
Proof.
  unfold remove_entry. induction d as [|x d IH]; cbn; [constructor|].
  intros H. inversion H as [|? ? Hnotin Hnd]; subst.
  destruct (has_name n x); cbn; [now apply IH|].
  constructor; [|now apply IH].
  intros Hin. apply Hnotin. now apply (In_names_remove n).
Qed.

Lemma In_names_rename (old new m : string) (d : list entry) :
  In m (map name (rename_entry old new d)) ->
  (m = new /\ In old (map name d)) \/ (m <> old /\ In m (map name d)).
Proof.
  unfold rename_entry, has_name. induction d as [|x d IH]; cbn; [intros []|].
  destruct (String.eqb (name x) old) eqn:Hx; cbn.
  - apply String.eqb_eq in Hx. intros [<-|H]; [left; split; auto|].
    destruct (IH H) as [[? ?]|[? ?]]; [left|right]; auto.
  - apply String.eqb_neq in Hx. intros [<-|H]; [right; split; [exact Hx|now left]|].
    destruct (IH H) as [[? ?]|[? ?]]; [left|right]; auto.
Qed.

Lemma NoDup_rename_entry (old new : string) (d : list entry) :
  NoDup (map name d) -> ~ In new (map name d) ->
  NoDup (map name (rename_entry old new d)).
Proof.
  clear resolve.
  unfold rename_entry, has_name. induction d as [|x d IH]; cbn; [constructor|].
  intros H Hnew. inversion H as [|? ? Hnotin Hnd]; subst.
  assert (Hnew' : ~ In new (map name d)) by tauto.
  destruct (String.eqb (name x) old) eqn:Hx; cbn.
  - constructor; [|now apply IH].
    apply String.eqb_eq in Hx. intros Hin.
    apply (In_names_rename old new new d) in Hin as [[_ Hin]|[_ Hin]];
      [congruence|tauto].
  - constructor; [|now apply IH].
    apply String.eqb_neq in Hx. intros Hin.
    apply (In_names_rename old new (name x) d) in Hin as [[Hn _]|[_ Hin]];
      [tauto|tauto].
Qed.

Lemma entry_exists_In (n : string) (d : list entry) :
  entry_exists n d = true <-> In n (map name d).
Proof.
  clear resolve.
  unfold entry_exists, has_name. rewrite existsb_exists, in_map_iff.
  split; intros (x & H1 & H2).
  - exists x. apply String.eqb_eq in H2. tauto.
  - exists x. split; [tauto|]. now apply String.eqb_eq.
Qed.

(** ** What [rename_zip_file] and [find_crx_file] do *)

Lemma rename_zip_file_no_output (self : builder) (s : state) :
  output (fs s) = None -> rename_zip_file self s = (Ok None, s).
Proof.
  intros H. unfold rename_zip_file, bind, output_dir_exists_, ret.
  now rewrite H.
Qed.

Lemma rename_zip_file_no_archive (self : builder) (s : state) (d : list entry) :
  output (fs s) = Some d -> first_archive d = None ->
  rename_zip_file self s = (Ok None, s).
Proof.
  intros H Hf. unfold rename_zip_file, bind, output_dir_exists_, output_glob, ret.
  rewrite H. cbn -[glob_suffix]. rewrite H, glob_suffix_first.
  unfold first_archive in Hf. now rewrite Hf.
Qed.

Lemma rename_zip_file_in_place (self : builder) (s : state) (d : list entry) (e : entry) :
  output (fs s) = Some d -> first_archive d = Some e -> name e = TARGET ->
  rename_zip_file self s = (Ok (Some (output_dir self // TARGET)), s).
Proof.
  intros H Hf Hn. unfold rename_zip_file, bind, output_dir_exists_, output_glob, ret.
  rewrite H. cbn -[glob_suffix]. rewrite H, glob_suffix_first.
  unfold first_archive in Hf. rewrite Hf.
  rewrite Path_eqb_join, Hn, String.eqb_refl. reflexivity.
Qed.

Lemma rename_zip_file_moves (self : builder) (s : state) (d : list entry) (e : entry) :
  output (fs s) = Some d -> first_archive d = Some e -> name e <> TARGET ->
  rename_zip_file self s =
  (Ok (Some (output_dir self // TARGET)),
   mkState (ext s)
     (mkFs (project_dir_exists (fs s)) (package_json_exists (fs s))
        (Some (rename_entry (name e) TARGET (remove_entry TARGET d))))
     (trace s
        ++ (if entry_exists TARGET d then [Unlink (output_dir self // TARGET)] else [])
        ++ [Rename (output_dir self // name e) (output_dir self // TARGET)])
     (console s) (crx_file s)).
Proof.
  intros H Hf Hn. destruct s as [x [pe pj out] tr con crx]. cbn in H. subst out.
  unfold rename_zip_file, bind, output_dir_exists_, output_glob, ret.
  cbn -[glob_suffix]. rewrite glob_suffix_first.
  unfold first_archive in Hf. rewrite Hf.
  rewrite Path_eqb_join.
  apply String.eqb_neq in Hn. rewrite Hn.
  unfold output_exists, output_unlink, output_rename, log, set_output.
  cbn. rewrite !Path_name_join.
  destruct (entry_exists TARGET d) eqn:Hex; cbn.
  - rewrite ?Path_name_join, <- app_assoc. reflexivity.
  - rewrite ?Path_name_join.
    now rewrite (entry_exists_false _ _ Hex).
Qed.

Lemma find_crx_file_no_output (self : builder) (s : state) :
  output (fs s) = None -> find_crx_file self s = (Ok None, s).
Proof.
  intros H. unfold find_crx_file, bind, output_dir_exists_, ret.
  now rewrite H.
Qed.

Lemma find_crx_file_none (self : builder) (s : state) (d : list entry) :
  output (fs s) = Some d ->
  find (fun e => endswith (name e) ".crx") d = None ->
  find_crx_file self s = (Ok None, s).
Proof.
  intros H Hf. unfold find_crx_file, bind, output_dir_exists_, output_glob, ret.
  rewrite H. cbn -[glob_suffix]. rewrite H, glob_suffix_first. now rewrite Hf.
Qed.

Lemma find_crx_file_some (self : builder) (s : state) (d : list entry) (e : entry) :
  output (fs s) = Some d ->
  find (fun x => endswith (name x) ".crx") d = Some e ->
  find_crx_file self s =
  (Ok (Some (output_dir self // name e)),
   mkState (ext s) (fs s) (trace s) (console s) (Some (output_dir self // name e))).
Proof.
  intros H Hf. unfold find_crx_file, bind, output_dir_exists_, output_glob, ret.
  rewrite H. cbn -[glob_suffix]. rewrite H, glob_suffix_first. now rewrite Hf.
Qed.

(** ** No archive, no action *)

(** C6. When [output/] does not exist, or exists and holds no name ending in
    [.zip], [rename_zip_file] returns [None] normally and changes nothing
    (the state after is the state before: no unlink, no rename, no
    process); when there is no name ending in [.crx] either (in particular
    when [output/] does not exist), [find_crx_file] returns [None] normally
    and changes nothing; and in any case [find_crx_file] returns normally
    with file system and trace untouched. *)
Theorem no_archive_no_action (self : builder) (s : state) :
  (forall d e, output (fs s) = Some d -> In e d -> endswith (name e) ".zip" = false) ->
  rename_zip_file self s = (Ok None, s) /\
  (exists r s', find_crx_file self s = (Ok r, s') /\
     fs s' = fs s /\ trace s' = trace s /\ console s' = console s /\ ext s' = ext s) /\
  ((forall d e, output (fs s) = Some d -> In e d -> endswith (name e) ".crx" = false) ->
   find_crx_file self s = (Ok None, s)).
Proof.
  intros Hzip. destruct (output (fs s)) as [d|] eqn:H.
  - split; [|split].
    + apply (rename_zip_file_no_archive self s d H).
      apply find_none_iff. intros e He. now apply (Hzip d e).
    + destruct (find (fun x => endswith (name x) ".crx") d) as [e|] eqn:Hf.
      * rewrite (find_crx_file_some self s d e H Hf). eauto 10.
      * rewrite (find_crx_file_none self s d H Hf). eauto 10.
    + intros Hcrx. apply (find_crx_file_none self s d H).
      apply find_none_iff. intros e He. now apply (Hcrx d e).
  - split; [|split].
    + now apply rename_zip_file_no_output.
    + rewrite (find_crx_file_no_output self s H). eauto 10.
    + intros _. now apply find_crx_file_no_output.
Qed.

(** ** The rename *)


Lemma others_rename (old : string) (d : list entry) :
  let keep := fun x => negb (has_name TARGET x) && negb (has_name old x) in
  filter keep (rename_entry old TARGET (remove_entry TARGET d)) = filter keep d.
Proof.
  intros keep. unfold rename_entry, remove_entry.
  induction d as [|x d IH]; cbn; [reflexivity|].
  destruct (has_name TARGET x) eqn:Ht; cbn.
  - replace (keep x) with false by (unfold keep; now rewrite Ht).
    exact IH.
  - destruct (has_name old x) eqn:Ho; cbn.
    + replace (keep x) with false by (unfold keep; now rewrite Ht, Ho).
      exact IH.
    + replace (keep x) with true by (unfold keep; now rewrite Ht, Ho).
      now rewrite IH.
Qed.

(** C10. When [output/] exists, [rename_zip_file] returns normally and
    changes nothing but the trace and the listing of [output/]: it adds at
    most two events, each an unlink of the target path or a rename of the
    first archive to the target path; every name other than the target and
    the first archive's keeps its presence and its content, and the entries
    under those other names (further archives and package files among them)
    are the same, in the same order. *)
Theorem rename_leaves_the_rest (self : builder) (s : state) (d : list entry) :
  output (fs s) = Some d ->
  let new_zip := output_dir self // TARGET in
  exists r s' d' t,
    rename_zip_file self s = (Ok r, s') /\
    output (fs s') = Some d' /\
    project_dir_exists (fs s') = project_dir_exists (fs s) /\
    package_json_exists (fs s') = package_json_exists (fs s) /\
    ext s' = ext s /\ console s' = console s /\ crx_file s' = crx_file s /\
    trace s' = trace s ++ t /\
    List.length t <= 2 /\
    (forall ev, In ev t ->
       ev = Unlink new_zip \/
       exists e, first_archive d = Some e /\
                 ev = Rename (output_dir self // name e) new_zip) /\
    (forall n, ~ touched d n -> lookup n d' = lookup n d) /\
    others d d' = others d d.
Proof.
  intros H new_zip.
  destruct (first_archive d) as [e|] eqn:Hf.
  - destruct (String.eqb (name e) TARGET) eqn:Hn.
    + apply String.eqb_eq in Hn.
      exists (Some new_zip), s, d, [].
      rewrite (rename_zip_file_in_place self s d e H Hf Hn), app_nil_r.
      cbn. repeat split; auto. intros ev [].
    + apply String.eqb_neq in Hn.
      rewrite (rename_zip_file_moves self s d e H Hf Hn).
      do 4 eexists. split; [reflexivity|]. cbn.
      repeat split.
      * destruct (entry_exists TARGET d); cbn; lia.
      * intros ev Hev. apply in_app_or in Hev as [Hev|[<-|[]]].
        -- destruct (entry_exists TARGET d); [|destruct Hev].
           destruct Hev as [<-|[]]. now left.
        -- right. now exists e.
      * intros n Hn'.
        assert (n <> TARGET) by (intros ->; apply Hn'; now left).
        assert (n <> name e) by (intros ->; apply Hn'; right; now exists e).
        rewrite lookup_rename_other by assumption.
        rewrite lookup_remove_entry.
        assert (String.eqb n TARGET = false) as -> by now apply String.eqb_neq.
        reflexivity.
      * unfold others. rewrite Hf. apply others_rename.
  - exists None, s, d, [].
    rewrite (rename_zip_file_no_archive self s d H Hf), app_nil_r.
    cbn. repeat split; auto. intros ev [].
Qed.

(** ** Traces of the parts of a run *)

Lemma calls_app (a b : list event) : calls (a ++ b) = calls a ++ calls b.
Proof.
  induction a as [|[i o|p|p q] a IH]; cbn; [reflexivity| |exact IH|exact IH].
  now rewrite IH.
Qed.

(** [run_command] starts exactly one process, the command in the project
    directory, never raises, and returns whether the process succeeded. *)
Lemma run_command_spec (self : builder) (cmd : list string) (description : string)
    (s : state) :
  exists o s',
    run_command self cmd description s = (Ok (succeeded o), s') /\
    trace s' = trace s ++ [Run (stage_inv self cmd) o] /\
    spawn (stage_inv self cmd) (ext s, fs s) = (o, (ext s', fs s')) /\
    crx_file s' = crx_file s.
Proof.
  unfold run_command, bind, print, try_except, subprocess_run, ret. cbn.
  fold (stage_inv self cmd).
  destruct (spawn (stage_inv self cmd) (ext s, fs s)) as [o [x f]] eqn:E.
  exists o. destruct o as [rc out|e]; cbn.
  - destruct (rc =? 0)%Z; cbn; eexists; repeat split; reflexivity.
  - destruct e; cbn; eexists; repeat split; reflexivity.
Qed.

Lemma well_formed_stage (self : builder) (st : stage) (o : outcome) :
  well_formed self (Run (stage_inv self (primary st)) o) /\
  well_formed self (Run (stage_inv self (fallback st)) o).
Proof.
  split; right; (split; [reflexivity|exists st]); [now left|now right].
Qed.

(** A stage runs its primary command and, only when that fails, its
    fallback; it never raises. *)
Lemma run_stage_spec (self : builder) (st : stage) (s : state) :
  exists ok s' t,
    run_stage self st s = (Ok ok, s') /\
    trace s' = trace s ++ t /\
    stage_calls st (calls t) ok /\
    Forall (well_formed self) t.
Proof.
  assert (Hwf := well_formed_stage self st).
  assert (Hok := primary_succeeds st).
  assert (Hko := primary_fails st).
  destruct st; unfold run_stage, install_stage, build_stage, package_stage, bind.
  all: match goal with
       | |- context [run_command ?b ?c ?d ?s0] =>
           destruct (run_command_spec b c d s0) as (o1 & s1 & E1 & T1 & _ & _)
       end.
  all: rewrite E1; destruct (succeeded o1) eqn:S1; cbn -[run_command].
  all: try (exists true, s1; eexists;
            split; [reflexivity|]; split; [exact T1|]; split;
            [cbn; rewrite S1; exact Hok
            |apply Forall_cons; [apply Hwf|apply Forall_nil]]).
  all: match goal with
       | |- context [run_command ?b ?c ?d ?s2] =>
           destruct (run_command_spec b c d s2) as (o2 & s2' & E2 & T2 & _ & _)
       end.
  all: rewrite E2; cbn in T2; rewrite T1, <- app_assoc in T2.
  all: exists (succeeded o2), s2'; eexists.
  all: split; [now destruct (succeeded o2)|]; split; [exact T2|]; split;
         [cbn; rewrite S1; apply Hko
         |apply Forall_cons; [apply Hwf|apply Forall_cons; [apply Hwf|apply Forall_nil]]].
Qed.

Ltac close_prereq_case :=
  do 3 eexists; split; [reflexivity|];
  cbn [trace]; rewrite <- ?app_assoc;
  split; [first [reflexivity | symmetry; apply app_nil_r]|];
  split;
  [cbn; repeat match goal with H : (_ =? 0)%Z = _ |- _ => rewrite H end; constructor
  |repeat (apply Forall_cons;
           [left; split; [reflexivity|first [now left|now right]]|]);
   apply Forall_nil].

(** The precondition check asks at most for the two versions, [pnpm]'s
    first. *)
Lemma check_prerequisites_spec (self : builder) (s : state) :
  exists r s' t,
    check_prerequisites self s = (r, s') /\
    trace s' = trace s ++ t /\
    prereq_calls (calls t) r /\
    Forall (well_formed self) t.
Proof.
  unfold check_prerequisites, bind, print, try_except, subprocess_run, ret,
    project_dir_exists_, package_json_exists_. cbn.
  destruct (project_dir_exists (fs s)); cbn; [|close_prereq_case].
  destruct (package_json_exists (fs s)); cbn; [|close_prereq_case].
  destruct (spawn _ (ext s, fs s)) as [o1 [x1 f1]].
  destruct o1 as [rc1 out1|[m1|m1|m1]]; cbn;
    [destruct (rc1 =? 0)%Z eqn:R1; cbn| | |]; try close_prereq_case.
  all: destruct (spawn _ (x1, f1)) as [o2 [x2 f2]].
  all: destruct o2 as [rc2 out2|[m2|m2|m2]]; cbn;
    [destruct (rc2 =? 0)%Z eqn:R2; cbn| | |]; close_prereq_case.
Qed.

(** The last part of [build] starts no process and always returns [True]. *)
Lemma report_spec (self : builder) (s : state) :
  exists s' t,
    report self s = (Ok true, s') /\
    trace s' = trace s ++ t /\
    calls t = [] /\
    Forall (well_formed self) t.
Proof.
  assert (Hz : exists z s1 t, rename_zip_file self s = (Ok z, s1) /\
                 trace s1 = trace s ++ t /\ calls t = [] /\
                 Forall (well_formed self) t).
  { destruct (output (fs s)) as [d|] eqn:H.
    - destruct (first_archive d) as [e|] eqn:Hf.
      + destruct (String.eqb (name e) TARGET) eqn:Hn.
        * apply String.eqb_eq in Hn.
          rewrite (rename_zip_file_in_place self s d e H Hf Hn).
          do 2 eexists; exists []. rewrite app_nil_r. repeat split; constructor.
        * apply String.eqb_neq in Hn.
          rewrite (rename_zip_file_moves self s d e H Hf Hn).
          do 3 eexists. split; [reflexivity|]. split; [reflexivity|].
          destruct (entry_exists TARGET d); cbn; split;
            repeat constructor.
      + rewrite (rename_zip_file_no_archive self s d H Hf).
        do 2 eexists; exists []. rewrite app_nil_r. repeat split; constructor.
    - rewrite (rename_zip_file_no_output self s H).
      do 2 eexists; exists []. rewrite app_nil_r. repeat split; constructor. }
  destruct Hz as (z & s1 & t & Ez & Tz & Cz & Wz).
  assert (Hc : exists c s2, find_crx_file self s1 = (Ok c, s2) /\ trace s2 = trace s1).
  { destruct (output (fs s1)) as [d|] eqn:H.
    - destruct (find (fun x => endswith (name x) ".crx") d) as [e|] eqn:Hf.
      + rewrite (find_crx_file_some self s1 d e H Hf). eauto.
      + rewrite (find_crx_file_none self s1 d H Hf). eauto.
    - rewrite (find_crx_file_no_output self s1 H). eauto. }
  destruct Hc as (c & s2 & Ec & Tc).
  unfold report, bind. rewrite Ez, Ec.
  exists (snd (report self s)), t.
  unfold report, bind. rewrite Ez, Ec.
  destruct z, c; cbn; rewrite Tc, Tz; auto.
Qed.

(** [build] is the pipeline followed, when it succeeds, by the report. *)
Lemma build_pipeline (self : builder) (s : state) :
  build self s =
  (ok <- pipeline self ;; if negb ok then ret false else report self) s.
Proof.
  unfold build, pipeline, bind, print, ret.
  cbn -[check_prerequisites install_stage build_stage package_stage report].
  repeat match goal with
         | |- context [check_prerequisites ?b ?s0] =>
             destruct (check_prerequisites b s0) as [[[|]|?] ?]
         | |- context [install_stage ?b ?s0] =>
             destruct (install_stage b s0) as [[[|]|?] ?]
         | |- context [build_stage ?b ?s0] =>
             destruct (build_stage b s0) as [[[|]|?] ?]
         | |- context [package_stage ?b ?s0] =>
             destruct (package_stage b s0) as [[[|]|?] ?]
         | _ => progress cbn -[check_prerequisites install_stage build_stage
                               package_stage report]
         end; reflexivity.
Qed.

(** The calls of a run of [build] are those of the precondition check
    followed, when it passes, by those of the stages in order, up to the
    first stage that fails. *)
Lemma build_spec (self : builder) (s : state) :
  exists r s' t,
    build self s = (r, s') /\
    trace s' = trace s ++ t /\
    build_calls (calls t) r /\
    Forall (well_formed self) t.
Proof.
  unfold build, bind, print, ret.
  cbn -[check_prerequisites install_stage build_stage package_stage report].
  match goal with
  | |- context [check_prerequisites self ?s0] =>
      destruct (check_prerequisites_spec self s0) as (r0 & s1 & t0 & E0 & T0 & C0 & W0)
  end.
  rewrite E0. cbn in T0.
  destruct r0 as [[|]|e];
    cbn -[check_prerequisites install_stage build_stage package_stage report].
  2: { exists (Ok false), s1, t0. repeat split; auto.
       apply prereq_stops; [exact C0|discriminate]. }
  2: { exists (Raise e), s1, t0. repeat split; auto.
       apply prereq_stops; [exact C0|discriminate]. }
  change (install_stage self) with (run_stage self Install).
  change (build_stage self) with (run_stage self Build).
  change (package_stage self) with (run_stage self Package).
  match goal with
  | |- context [run_stage self Install ?s0] =>
      destruct (run_stage_spec self Install s0) as (ok1 & s2 & t1 & E1 & T1 & C1 & W1)
  end.
  rewrite E1. cbn in T1. rewrite T0, <- app_assoc in T1.
  destruct ok1; cbn -[run_stage report].
  2: { exists (Ok false), s2, (t0 ++ t1). rewrite calls_app.
       repeat split; auto.
       - apply prereq_passes; [exact C0|]. now apply stage_aborts.
       - now apply Forall_app. }
  match goal with
  | |- context [run_stage self Build ?s0] =>
      destruct (run_stage_spec self Build s0) as (ok2 & s3 & t2 & E2 & T2 & C2 & W2)
  end.
  rewrite E2. cbn in T2. rewrite T1, <- !app_assoc in T2.
  destruct ok2; cbn -[run_stage report].
  2: { exists (Ok false), s3, (t0 ++ t1 ++ t2). rewrite !calls_app.
       repeat split; auto.
       - apply prereq_passes; [exact C0|].
         apply stage_passes; [exact C1|]. now apply stage_aborts.
       - repeat (apply Forall_app; split); auto. }
  match goal with
  | |- context [run_stage self Package ?s0] =>
      destruct (run_stage_spec self Package s0) as (ok3 & s4 & t3 & E3 & T3 & C3 & W3)
  end.
  rewrite E3. cbn in T3. rewrite T2, <- !app_assoc in T3.
  destruct ok3; cbn -[run_stage report].
  2: { exists (Ok false), s4, (t0 ++ t1 ++ t2 ++ t3). rewrite !calls_app.
       repeat split; auto.
       - apply prereq_passes; [exact C0|].
         apply stage_passes; [exact C1|].
         apply stage_passes; [exact C2|]. now apply stage_aborts.
       - repeat (apply Forall_app; split); auto. }
  destruct (report_spec self s4) as (s5 & t4 & E4 & T4 & C4 & W4).
  rewrite T3, <- !app_assoc in T4.
  exists (Ok true), s5, (t0 ++ t1 ++ t2 ++ t3 ++ t4). rewrite !calls_app, C4.
  repeat split; auto.
  - apply prereq_passes; [exact C0|].
    apply stage_passes; [exact C1|].
    apply stage_passes; [exact C2|].
    apply stage_passes; [exact C3|]. constructor.
  - repeat (apply Forall_app; split); auto.
Qed.

(** ** Properties of every admissible list of calls *)

Lemma each_split_spec {A} (P : list A -> A -> list A -> Prop) (q pre0 : list A) :
  each_split P pre0 q ->
  forall pre a post, q = pre ++ a :: post -> P (pre0 ++ pre) a post.
Proof.
  revert pre0. induction q as [|x q IH]; intros pre0 H pre a post E.
  - now destruct pre.
  - destruct H as [Hx Hq]. destruct pre as [|y pre]; cbn in E.
    + injection E as <- <-. now rewrite app_nil_r.
    + injection E as <- ->.
      specialize (IH _ Hq pre a post eq_refl).
      now rewrite <- app_assoc in IH.
Qed.

Ltac inv H := inversion H; subst; clear H.

Ltac enumerate_runs :=
  repeat match goal with
         | H : build_calls _ _ |- _ => inv H
         | H : prereq_calls _ _ |- _ => inv H
         | H : stages_calls _ _ _ |- _ => inv H
         | H : stage_calls _ _ _ |- _ => inv H
         | H : Ok ?b <> Ok true |- _ =>
             is_var b; destruct b; [exfalso; apply H; reflexivity|]
         | H : Ok true <> Ok true |- _ => exfalso; apply H; reflexivity
         end.

Ltac find_call := cbn; solve [repeat first [left; reflexivity | right]].

Ltac split_positions :=
  repeat match goal with
         | |- _ /\ _ => split
         | |- True => exact I
         end.

Lemma build_calls_fallback_rule (q : list call) (r : result bool) :
  build_calls q r -> fallback_rule q r.
Proof.
  intros H pre post st E.
  apply (each_split_spec
           (fun _ c post =>
              forall st, c = (primary st, false) ->
              exists ok post',
                post = (fallback st, ok) :: post' /\
                (ok = false -> post' = [] /\ r = Ok false) /\
                (ok = true ->
                 match next_stage st with
                 | Some st' => exists ok' post'', post' = (primary st', ok') :: post''
                 | None => post' = [] /\ r = Ok true
                 end)) q [] ) with (pre := pre) (st := st) in E;
    [exact E| |reflexivity].
  clear E pre post st.
  enumerate_runs; cbn; split_positions;
    intros st Hc; destruct st; cbn in Hc; try discriminate Hc;
    (do 2 eexists; split; [reflexivity|]; split;
     [intros Hf; try discriminate Hf; split; reflexivity
     |intros Ht; try discriminate Ht; cbn;
      first [do 2 eexists; reflexivity | split; reflexivity]]).
Qed.

Lemma fallback_rule_stops (q : list call) (r : result bool) :
  fallback_rule q r -> stops_at_failure q r.
Proof.
  intros H pre post st E.
  destruct (H pre _ st E) as (ok & post' & Ep & Hfail & _).
  injection Ep as <- <-. now apply Hfail.
Qed.

Lemma build_calls_in_stage_order (q : list call) (r : result bool) :
  build_calls q r -> in_stage_order q.
Proof.
  intros H.
  assert (HE : each_split
                 (fun _ c post =>
                    forall st, is_stage_command (fst c) st ->
                    forall a' ok' st',
                      In (a', ok') post -> is_stage_command a' st' ->
                      stage_index st <= stage_index st') [] q).
  { enumerate_runs; cbn; split_positions;
      intros st [Ha|Ha] a' ok' st' Hin Ha';
      destruct st; cbn in Ha; try discriminate Ha;
      repeat (destruct Hin as [Hin|Hin];
              [injection Hin as <- <-;
               destruct Ha' as [Ha'|Ha']; destruct st'; cbn in Ha';
               try discriminate Ha'; cbn; lia|]);
      contradiction. }
  intros pre a ok post st E Hs.
  exact (each_split_spec _ q [] HE pre (a, ok) post E st Hs).
Qed.

Lemma build_calls_gated (q : list call) (r : result bool) :
  build_calls q r -> gated q.
Proof.
  intros H.
  assert (HE : each_split
                 (fun pre c _ =>
                    forall st, is_stage_command (fst c) st ->
                    query_succeeded pre /\
                    forall st', stage_index st' < stage_index st ->
                                stage_succeeded st' pre) [] q).
  { enumerate_runs; cbn; split_positions;
      intros st [Ha|Ha]; destruct st; cbn in Ha; try discriminate Ha;
      (split;
       [first [left; find_call | right; find_call]
       |intros st' Hlt; destruct st'; cbn in Hlt; try lia;
        first [left; find_call | right; find_call]]). }
  intros pre a ok post st E Hs.
  exact (each_split_spec _ q [] HE pre (a, ok) post E st Hs).
Qed.

Lemma well_formed_in_project_dir (self : builder) (t : list event) :
  Forall (well_formed self) t -> in_project_dir self t.
Proof.
  intros H i o st Hin Hs. rewrite Forall_forall in H.
  destruct (H _ Hin) as [[_ Hq]|[Hi _]].
  - exfalso. destruct Hs as [Hs|Hs]; rewrite Hs in Hq;
      destruct st; destruct Hq as [Hq|Hq]; discriminate Hq.
  - rewrite Hi. split; reflexivity.
Qed.

Lemma build_calls_success (q : list call) (r : result bool) :
  build_calls q r -> (r = Ok true <-> pipeline_succeeded q).
Proof.
  intros H. unfold pipeline_succeeded, query_succeeded, stage_succeeded.
  enumerate_runs; cbn; split.
  all: try (intros Hr; discriminate Hr).
  all: try (intros _; reflexivity).
  all: try (intros _; split;
            [first [left; find_call | right; find_call]
            |intros st; destruct st; first [left; find_call | right; find_call]]).
  all: intros [Hq Hs]; exfalso.
  all: clear resolve.
  all: try (clear Hs; intuition discriminate).
  all: first [ generalize (Hs Install); clear; cbn; intuition discriminate
             | generalize (Hs Build); clear; cbn; intuition discriminate
             | generalize (Hs Package); clear; cbn; intuition discriminate ].
Qed.

(** ** Fallback and order of the stages *)


(** C8. In every run of [build] the stage commands come in the order
    install, build, package; before any command of a stage a version query
    of the precondition check has succeeded and so has a command of every
    earlier stage; every stage command runs with the project directory as
    its working directory; and a stage whose primary and fallback commands
    both failed ends the run with [False], with no command after it. *)
Theorem stages_run_in_order (self : builder) (s : state) :
  exists t,
    trace (snd (build self s)) = trace s ++ t /\
    in_stage_order (calls t) /\
    gated (calls t) /\
    stops_at_failure (calls t) (fst (build self s)) /\
    in_project_dir self t.
Proof.
  destruct (build_spec self s) as (r & s' & t & E & T & C & W).
  exists t. rewrite E. cbn. split; [exact T|].
  split; [now apply (build_calls_in_stage_order _ r)|].
  split; [now apply (build_calls_gated _ r)|].
  split; [now apply fallback_rule_stops, build_calls_fallback_rule|].
  now apply well_formed_in_project_dir.
Qed.

(** ** The exit status *)



(** ** What the precondition check answers *)

(** When the check returns [True] both paths exist; when it returns [False]
    the last line printed names what is missing; and it raises exactly the
    exceptions of a version query that are not [FileNotFoundError], which
    needs both paths to exist. *)
Lemma check_prerequisites_answers (self : builder) (s : state) :
  let exist := project_dir_exists (fs s) = true /\ package_json_exists (fs s) = true in
  match check_prerequisites self s with
  | (Ok true, _) => exist
  | (Ok false, s') =>
      (project_dir_exists (fs s) = false /\
       last (console s') "" =
         ("❌ 项目目录不存在: " ++ Path_str (project_dir self))%string) \/
      (package_json_exists (fs s) = false /\
       last (console s') "" = "❌ 找不到 package.json，请确保在项目根目录") \/
      (exist /\ last (console s') "" = "❌ 没有找到 pnpm 或 npm，请先安装")
  | (Raise e, _) =>
      exist /\ match e with FileNotFoundError _ => False | _ => True end
  end.
Proof.
  unfold check_prerequisites, bind, print, try_except, subprocess_run, ret,
    project_dir_exists_, package_json_exists_. cbn.
  destruct (project_dir_exists (fs s)); cbn;
    [|left; split; [reflexivity|apply last_last]].
  destruct (package_json_exists (fs s)); cbn;
    [|right; left; split; [reflexivity|apply last_last]].
  destruct (spawn _ (ext s, fs s)) as [o1 [x1 f1]].
  destruct o1 as [rc1 out1|[m1|m1|m1]]; cbn;
    [destruct (rc1 =? 0)%Z; cbn| | |]; auto.
  all: destruct (spawn _ (x1, f1)) as [o2 [x2 f2]].
  all: destruct o2 as [rc2 out2|[m2|m2|m2]]; cbn;
    [destruct (rc2 =? 0)%Z; cbn| | |]; auto.
  all: right; right; split; [auto|apply last_last].
Qed.

(** [run_command] turns every failure of its command into [False]. *)
Lemma run_command_never_raises (self : builder) (cmd : list string)
    (description : string) (s : state) :
  exists ok, fst (run_command self cmd description s) = Ok ok.
Proof.
  destruct (run_command_spec self cmd description s) as (o & s' & E & _).
  exists (succeeded o). now rewrite E.
Qed.

(** ** More on the listing: what the glob selects *)

Lemma str_length_app (a b : string) :
  String.length (a ++ b)%string = String.length a + String.length b.
Proof. induction a as [|c a IH]; cbn; [reflexivity|now rewrite IH]. Qed.

Lemma substring_skip (a b : string) (k : nat) :
  substring (String.length a) k (a ++ b)%string = substring 0 k b.
Proof. induction a as [|c a IH]; cbn; [reflexivity|exact IH]. Qed.

Lemma substring_all (b : string) : substring 0 (String.length b) b = b.
Proof. induction b as [|c b IH]; cbn; [reflexivity|now rewrite IH]. Qed.

Lemma substring_split (s : string) (m : nat) :
  m <= String.length s ->
  s = (substring 0 m s ++ substring m (String.length s - m) s)%string.
Proof.
  revert m. induction s as [|c s IH]; intros m Hm; cbn in Hm.
  - assert (m = 0) as -> by lia. reflexivity.
  - destruct m as [|m]; cbn.
    + now rewrite substring_all.
    + f_equal. apply IH. lia.
Qed.

Lemma endswith_spec (s suffix : string) :
  endswith s suffix = true <-> exists pre, s = (pre ++ suffix)%string.
Proof.
  unfold endswith. rewrite andb_true_iff, Nat.leb_le, String.eqb_eq. split.
  - intros [Hle Hsub]. exists (substring 0 (String.length s - String.length suffix) s).
    assert (Hm : String.length s - String.length suffix <= String.length s) by lia.
    apply substring_split in Hm.
    replace (String.length s - (String.length s - String.length suffix))
      with (String.length suffix) in Hm by lia.
    now rewrite Hsub in Hm.
  - intros [pre ->]. rewrite str_length_app. split; [lia|].
    replace (String.length pre + String.length suffix - String.length suffix)
      with (String.length pre) by lia.
    now rewrite substring_skip, substring_all.
Qed.


(** ** More on the precondition check *)


(** The processes of the precondition check and the world it leaves. *)
Lemma check_prerequisites_trace (self : builder) (s : state) :
  let q1 := query_inv pnpm_version in
  let q2 := query_inv npm_version in
  let r1 := spawn q1 (ext s, fs s) in
  let r2 := spawn q2 (snd r1) in
  let s' := snd (check_prerequisites self s) in
  exists k,
    trace s' = trace s ++ firstn k [Run q1 (fst r1); Run q2 (fst r2)] /\
    (k = 0 <-> project_dir_exists (fs s) && package_json_exists (fs s) = false) /\
    (k = 2 <->
     project_dir_exists (fs s) && package_json_exists (fs s) = true /\
     succeeded (fst r1) = false /\
     forall e, fst r1 = Raised e -> exists m, e = FileNotFoundError m) /\
    (ext s', fs s') = match k with
                      | 0 => (ext s, fs s)
                      | 1 => snd r1
                      | _ => snd r2
                      end.
Proof.
  unfold check_prerequisites, bind, print, try_except, subprocess_run, ret,
    project_dir_exists_, package_json_exists_, query_inv, pnpm_version, npm_version.
  cbn.
  destruct (project_dir_exists (fs s)); cbn.
  2: { exists 0. cbn. rewrite app_nil_r.
       repeat split; auto; try discriminate; intros [H _]; discriminate H. }
  destruct (package_json_exists (fs s)); cbn.
  2: { exists 0. cbn. rewrite app_nil_r.
       repeat split; auto; try discriminate; intros [H _]; discriminate H. }
  destruct (spawn _ (ext s, fs s)) as [o1 [x1 f1]]. cbn.
  destruct o1 as [rc1 out1|[m1|m1|m1]]; cbn; [destruct (rc1 =? 0)%Z eqn:R1; cbn| | |].
  - exists 1. cbn. repeat split; auto; try discriminate.
    intros (_ & H & _). discriminate H.
  - destruct (spawn _ (x1, f1)) as [o2 [x2 f2]]. cbn.
    exists 2. rewrite <- app_assoc.
    destruct o2 as [rc2 out2|[m2|m2|m2]]; cbn; [destruct (rc2 =? 0)%Z; cbn| | |];
      repeat split; auto; try discriminate.
  - destruct (spawn _ (x1, f1)) as [o2 [x2 f2]]. cbn.
    exists 2. rewrite <- app_assoc.
    destruct o2 as [rc2 out2|[m2|m2|m2]]; cbn; [destruct (rc2 =? 0)%Z; cbn| | |];
      repeat split; auto; try discriminate;
      intros e [= <-]; now exists m1.
  - exists 1. cbn. repeat split; auto; try discriminate.
    intros (_ & _ & H). destruct (H _ eq_refl) as [m Hm]. discriminate Hm.
  - exists 1. cbn. repeat split; auto; try discriminate.
    intros (_ & _ & H). destruct (H _ eq_refl) as [m Hm]. discriminate Hm.
Qed.


(** X4. Provided no version query that is made raises anything but
    [FileNotFoundError], the precondition check returns a boolean, and it
    returns [True] exactly when the project directory and [package.json]
    exist and [pnpm --version] exits with status 0 or, failing that,
    [npm --version], asked in the world the first query left, does. *)
Theorem check_prerequisites_true_iff (self : builder) (s : state) :
  let r1 := spawn (query_inv pnpm_version) (ext s, fs s) in
  let r2 := spawn (query_inv npm_version) (snd r1) in
  (forall e, fst r1 = Raised e -> exists m, e = FileNotFoundError m) ->
  (succeeded (fst r1) = false ->
   forall e, fst r2 = Raised e -> exists m, e = FileNotFoundError m) ->
  exists b,
    fst (check_prerequisites self s) = Ok b /\
    (b = true <->
     project_dir_exists (fs s) = true /\ package_json_exists (fs s) = true /\
     (succeeded (fst r1) = true \/ succeeded (fst r2) = true)).
Proof.
  unfold check_prerequisites, bind, print, try_except, subprocess_run, ret,
    project_dir_exists_, package_json_exists_, query_inv, pnpm_version, npm_version.
  cbn.
  destruct (project_dir_exists (fs s)); cbn.
  2: { intros _ _. exists false. split; [reflexivity|].
       split; [discriminate|]. intros (H & _). discriminate H. }
  destruct (package_json_exists (fs s)); cbn.
  2: { intros _ _. exists false. split; [reflexivity|].
       split; [discriminate|]. intros (_ & H & _). discriminate H. }
  destruct (spawn _ (ext s, fs s)) as [o1 [x1 f1]]. cbn.
  destruct o1 as [rc1 out1|[m1|m1|m1]]; cbn; [destruct (rc1 =? 0)%Z eqn:R1; cbn| | |].
  - intros _ _. exists true. split; [reflexivity|]. split; auto.
  - destruct (spawn _ (x1, f1)) as [o2 [x2 f2]]. cbn.
    intros _ H2. specialize (H2 eq_refl).
    destruct o2 as [rc2 out2|[m2|m2|m2]]; cbn; [destruct (rc2 =? 0)%Z; cbn| | |].
    + exists true. split; [reflexivity|]. split; auto.
    + exists false. split; [reflexivity|]. split; [discriminate|].
      intros (_ & _ & [H|H]); discriminate H.
    + exists false. split; [reflexivity|]. split; [discriminate|].
      intros (_ & _ & [H|H]); discriminate H.
    + destruct (H2 _ eq_refl) as [m Hm]. discriminate Hm.
    + destruct (H2 _ eq_refl) as [m Hm]. discriminate Hm.
  - destruct (spawn _ (x1, f1)) as [o2 [x2 f2]]. cbn.
    intros _ H2. specialize (H2 eq_refl).
    destruct o2 as [rc2 out2|[m2|m2|m2]]; cbn; [destruct (rc2 =? 0)%Z; cbn| | |].
    + exists true. split; [reflexivity|]. split; auto.
    + exists false. split; [reflexivity|]. split; [discriminate|].
      intros (_ & _ & [H|H]); discriminate H.
    + exists false. split; [reflexivity|]. split; [discriminate|].
      intros (_ & _ & [H|H]); discriminate H.
    + destruct (H2 _ eq_refl) as [m Hm]. discriminate Hm.
    + destruct (H2 _ eq_refl) as [m Hm]. discriminate Hm.
  - intros H1 _. destruct (H1 _ eq_refl) as [m Hm]. discriminate Hm.
  - intros H1 _. destruct (H1 _ eq_refl) as [m Hm]. discriminate Hm.
Qed.

(** X5. When the project directory and [package.json] exist and both
    version queries fail without raising anything but [FileNotFoundError]
    (a non-zero status or an absent executable), [main] exits with status 1
    after exactly these two queries, no stage command is run, and the last
    line printed is the diagnostic that neither [pnpm] nor [npm] was
    found. *)
Theorem no_package_manager_aborts (sys_argv : list string) (s : state) :
  let q1 := query_inv pnpm_version in
  let q2 := query_inv npm_version in
  let r1 := spawn q1 (ext s, fs s) in
  let r2 := spawn q2 (snd r1) in
  project_dir_exists (fs s) = true ->
  package_json_exists (fs s) = true ->
  succeeded (fst r1) = false ->
  (forall e, fst r1 = Raised e -> exists m, e = FileNotFoundError m) ->
  succeeded (fst r2) = false ->
  (forall e, fst r2 = Raised e -> exists m, e = FileNotFoundError m) ->
  fst (main sys_argv s) = 1%Z /\
  trace (snd (main sys_argv s)) = trace s ++ [Run q1 (fst r1); Run q2 (fst r2)] /\
  last (console (snd (main sys_argv s))) "" = "❌ 没有找到 pnpm 或 npm，请先安装".
Proof.
  rewrite main_unfold.
  unfold build, check_prerequisites, bind, print, try_except, subprocess_run, ret,
    project_dir_exists_, package_json_exists_, query_inv, pnpm_version, npm_version,
    main_start.
  cbn. intros Hd Hm. rewrite Hd. cbn. rewrite Hm. cbn.
  destruct (spawn _ (ext s, fs s)) as [o1 [x1 f1]]. cbn.
  destruct (spawn _ (x1, f1)) as [o2 [x2 f2]] eqn:E2. cbn.
  intros S1 F1 S2 F2.
  destruct o1 as [rc1 out1|e1]; cbn in S1 |- *;
    [rewrite S1|destruct (F1 _ eq_refl) as [m ->]]; cbn; rewrite E2; cbn.
  all: destruct o2 as [rc2 out2|e2]; cbn in S2 |- *;
    [rewrite S2|destruct (F2 _ eq_refl) as [m' ->]]; cbn; rewrite <- app_assoc.
  all: repeat split; try reflexivity; apply last_last.
Qed.

(** ** More on [run_command] *)

(** X6. [run_command] never raises.  It starts exactly one process, the
    command in the project directory with a limit of 300 seconds and
    without capturing output, leaves the world as that process left it,
    does not touch [self.crx_file], and returns [True] exactly when the
    process exits with status 0.  It prints five lines, the last of which
    tells the outcome: success, the non-zero exit code, the timeout, or, for
    every other exception ([FileNotFoundError] included), its text. *)
Theorem run_command_reports (self : builder) (cmd : list string)
    (description : string) (s : state) :
  let i := stage_inv self cmd in
  let r := spawn i (ext s, fs s) in
  let s' := snd (run_command self cmd description s) in
  fst (run_command self cmd description s) = Ok (succeeded (fst r)) /\
  trace s' = trace s ++ [Run i (fst r)] /\
  (ext s', fs s') = snd r /\
  crx_file s' = crx_file s /\
  exists banner,
    List.length banner = 4 /\
    console s' =
      console s ++ banner ++
      [match fst r with
       | Exited rc _ =>
           if (rc =? 0)%Z then (nl ++ "✅ " ++ description ++ " 成功")%string
           else (nl ++ "❌ " ++ description ++ " 失败 (exit code: "
                    ++ str_of_Z rc ++ ")")%string
       | Raised (TimeoutExpired _) =>
           (nl ++ "❌ " ++ description ++ " 超时（>5分钟）")%string
       | Raised e =>
           (nl ++ "❌ " ++ description ++ " 出错: " ++ exn_str e)%string
       end].
Proof.
  unfold run_command, bind, print, try_except, subprocess_run, ret, stage_inv. cbn.
  destruct (spawn _ (ext s, fs s)) as [o [x f]]. cbn.
  destruct o as [rc out|[m|m|m]]; cbn; [destruct (rc =? 0)%Z; cbn| | |].
  all: repeat split; try reflexivity.
  all: exists [(nl ++ str_repeat "=" 60)%string; ("📦 " ++ description)%string;
               str_repeat "=" 60;
               ("执行命令: " ++ String.concat " " cmd ++ nl)%string].
  all: split; [reflexivity|]; rewrite <- !app_assoc; reflexivity.
Qed.

(** ** More on discovery and rename *)

(** X7. [find_crx_file] returns the path [output_dir / name] of the first
    entry of [output/] whose name ends in [.crx] and stores it in
    [self.crx_file]; when there is none, or no [output/], it returns [None]
    and leaves the state, the attribute included, as it was.  Nothing else
    changes, and asking again gives the same answer and the same state. *)
Theorem find_crx_file_first_package (self : builder) (s : state) :
  let found := match output (fs s) with
               | Some d => find (fun e => endswith (name e) ".crx") d
               | None => None
               end in
  fst (find_crx_file self s) = Ok (option_map (fun e => output_dir self // name e) found) /\
  snd (find_crx_file self s) =
    mkState (ext s) (fs s) (trace s) (console s)
      (match found with
       | Some e => Some (output_dir self // name e)
       | None => crx_file s
       end) /\
  find_crx_file self (snd (find_crx_file self s)) = find_crx_file self s.
Proof.
  cbv zeta. destruct (output (fs s)) as [d|] eqn:H.
  - destruct (find (fun e => endswith (name e) ".crx") d) as [e|] eqn:Hf.
    + rewrite (find_crx_file_some self s d e H Hf). cbn [fst snd option_map].
      split; [reflexivity|]. split; [reflexivity|].
      erewrite find_crx_file_some; [reflexivity|exact H|exact Hf].
    + rewrite (find_crx_file_none self s d H Hf). cbn [fst snd option_map].
      split; [reflexivity|]. split; [now destruct s|].
      now rewrite (find_crx_file_none self s d H Hf).
  - rewrite (find_crx_file_no_output self s H). cbn [fst snd option_map].
    split; [reflexivity|]. split; [now destruct s|].
    now rewrite (find_crx_file_no_output self s H).
Qed.

Lemma entry_exists_rename_new (old new : string) (d : list entry) :
  entry_exists old d = true -> entry_exists new (rename_entry old new d) = true.
Proof.
  unfold entry_exists, rename_entry, has_name.
  induction d as [|x d IH]; cbn; [discriminate|].
  destruct (String.eqb (name x) old); cbn.
  - now rewrite String.eqb_refl.
  - intros H. rewrite IH by exact H. apply orb_true_r.
Qed.

Lemma entry_exists_remove_other (n m : string) (d : list entry) :
  m <> n -> entry_exists m (remove_entry n d) = entry_exists m d.
Proof.
  intros Hne. unfold entry_exists, remove_entry, has_name.
  induction d as [|x d IH]; cbn; [reflexivity|].
  destruct (String.eqb (name x) n) eqn:Hx; cbn.
  - apply String.eqb_eq in Hx.
    assert (String.eqb (name x) m = false) as ->
      by (apply String.eqb_neq; intros E; apply Hne; now rewrite <- E, Hx).
    exact IH.
  - now rewrite IH.
Qed.

Lemma first_archive_exists (d : list entry) (e : entry) :
  first_archive d = Some e ->
  In e d /\ endswith (name e) ".zip" = true /\ entry_exists (name e) d = true.
Proof.
  intros Hf. apply find_some in Hf as [Hin Hs]. repeat split; auto.
  unfold entry_exists. apply existsb_exists. exists e. split; [exact Hin|].
  apply String.eqb_refl.
Qed.


Lemma length_remove_entry (n : string) (d : list entry) :
  NoDup (map name d) -> entry_exists n d = true ->
  S (List.length (remove_entry n d)) = List.length d.
Proof.
  induction d as [|x d IH]; [discriminate|].
  intros Hnd Hex. cbn in Hnd. inversion Hnd as [|? ? Hnotin Hnd']; subst.
  unfold remove_entry, entry_exists in *. cbn [filter existsb List.length] in *.
  destruct (has_name n x) eqn:Hx; cbn [negb List.length].
  - f_equal. fold (remove_entry n d). apply f_equal, entry_exists_false.
    destruct (entry_exists n d) eqn:Hd; [|reflexivity].
    exfalso. apply Hnotin. unfold has_name in Hx. apply String.eqb_eq in Hx.
    rewrite Hx. now apply entry_exists_In.
  - f_equal. now apply IH.
Qed.

(** X9. [rename_zip_file] never adds an entry to [output/] and removes at
    most one: with distinct names, the listing shrinks by one exactly when
    the first archive is not yet called [TLS-Social-Media.zip] and a file of
    that name was there (the stale target is lost); in every other case its
    length is unchanged. *)
Theorem rename_loses_at_most_the_stale_target
    (self : builder) (s : state) (d : list entry) :
  output (fs s) = Some d ->
  NoDup (map name d) ->
  let stale := match first_archive d with
               | Some e => negb (String.eqb (name e) TARGET) && entry_exists TARGET d
               | None => false
               end in
  exists d',
    output (fs (snd (rename_zip_file self s))) = Some d' /\
    List.length d' + (if stale then 1 else 0) = List.length d.
Proof.
  intros H Hnd. cbv zeta. destruct (first_archive d) as [e|] eqn:Hf.
  - destruct (String.eqb (name e) TARGET) eqn:Hn; cbn [negb andb].
    + apply String.eqb_eq in Hn.
      rewrite (rename_zip_file_in_place self s d e H Hf Hn).
      exists d. split; [exact H|lia].
    + apply String.eqb_neq in Hn.
      rewrite (rename_zip_file_moves self s d e H Hf Hn). cbn [snd fs output].
      eexists. split; [reflexivity|].
      unfold rename_entry. rewrite length_map.
      destruct (entry_exists TARGET d) eqn:Hex.
      * rewrite <- (length_remove_entry TARGET d Hnd Hex). lia.
      * rewrite (entry_exists_false _ _ Hex). lia.
  - rewrite (rename_zip_file_no_archive self s d H Hf).
    exists d. split; [exact H|lia].
Qed.

Lemma not_both_suffixes (n : string) :
  endswith n ".zip" = true -> endswith n ".crx" = false.
Proof.
  unfold endswith. cbn [String.length]. intros H.
  apply andb_true_iff in H as [Hle Hs]. rewrite Hle. cbn.
  apply String.eqb_eq in Hs. rewrite Hs. reflexivity.
Qed.

Lemma find_crx_after_rename (old : string) (d : list entry) :
  endswith old ".zip" = true ->
  find (fun e => endswith (name e) ".crx")
       (rename_entry old TARGET (remove_entry TARGET d)) =
  find (fun e => endswith (name e) ".crx") d.
Proof.
  intros Hold. unfold rename_entry, remove_entry, has_name.
  induction d as [|x d IH]; cbn; [reflexivity|].
  destruct (String.eqb (name x) TARGET) eqn:Ht; cbn.
  - apply String.eqb_eq in Ht. rewrite Ht. cbn. exact IH.
  - destruct (String.eqb (name x) old) eqn:Ho; cbn.
    + apply String.eqb_eq in Ho. rewrite Ho, (not_both_suffixes old Hold). exact IH.
    + destruct (endswith (name x) ".crx"); [reflexivity|exact IH].
Qed.

(** X10. Renaming the archive does not change which package file is found:
    [find_crx_file] returns the same value after [rename_zip_file] as it
    would have returned before it. *)
Theorem rename_keeps_the_package (self : builder) (s : state) :
  fst (find_crx_file self (snd (rename_zip_file self s))) =
  fst (find_crx_file self s).
Proof.
  destruct (output (fs s)) as [d|] eqn:H.
  - destruct (first_archive d) as [e|] eqn:Hf.
    + destruct (String.eqb (name e) TARGET) eqn:Hn.
      * apply String.eqb_eq in Hn.
        now rewrite (rename_zip_file_in_place self s d e H Hf Hn).
      * apply String.eqb_neq in Hn.
        rewrite (rename_zip_file_moves self s d e H Hf Hn). cbn [snd].
        destruct (first_archive_exists d e Hf) as (_ & Hs & _).
        assert (Hfind := find_crx_after_rename (name e) d Hs).
        destruct (find (fun x => endswith (name x) ".crx") d) as [c|] eqn:Hc.
        -- rewrite (find_crx_file_some self s d c H Hc).
           erewrite find_crx_file_some; [reflexivity|reflexivity|exact Hfind].
        -- rewrite (find_crx_file_none self s d H Hc).
           erewrite find_crx_file_none; [reflexivity|reflexivity|exact Hfind].
    + now rewrite (rename_zip_file_no_archive self s d H Hf).
  - now rewrite (rename_zip_file_no_output self s H).
Qed.

(** ** More on the order of the commands *)

(** X11. In every run of [build], [npm] is a fallback only: a fallback
    stage command comes directly after the failed primary command of its
    stage, [npm --version] is asked only directly after a failed
    [pnpm --version] that opens the run, and the first process of a run, if
    any, is [pnpm --version]. *)
Theorem npm_only_after_failed_pnpm (self : builder) (s : state) :
  exists t,
    trace (snd (build self s)) = trace s ++ t /\
    (forall pre post st ok,
       calls t = pre ++ (fallback st, ok) :: post ->
       exists pre', pre = pre' ++ [(primary st, false)]) /\
    (forall pre post ok,
       calls t = pre ++ (npm_version, ok) :: post ->
       pre = [(pnpm_version, false)]) /\
    (forall c post, calls t = c :: post -> fst c = pnpm_version).
Proof.
  destruct (build_spec self s) as (r & s' & t & E & T & C & W).
  exists t. rewrite E. cbn [snd]. split; [exact T|].
  clear E T W.
  assert (HE : each_split
                 (fun pre c _ =>
                    (forall st ok, c = (fallback st, ok) ->
                                   exists pre', pre = pre' ++ [(primary st, false)]) /\
                    (forall ok, c = (npm_version, ok) ->
                                pre = [(pnpm_version, false)])) [] (calls t)).
  { enumerate_runs; cbn; split_positions.
    all: try (intros ok Hc; try discriminate Hc; reflexivity).
    all: intros st ok Hc; destruct st; cbn in Hc; try discriminate Hc.
    all: match goal with
         | |- exists p, ?l = _ => exists (removelast l); reflexivity
         end. }
  split; [|split].
  - intros pre post st ok Ht.
    exact (proj1 (each_split_spec _ _ [] HE pre _ post Ht) st ok eq_refl).
  - intros pre post ok Ht.
    exact (proj2 (each_split_spec _ _ [] HE pre _ post Ht) ok eq_refl).
  - clear HE. enumerate_runs; cbn; intros c post Ht;
      try discriminate Ht; injection Ht as <- _; reflexivity.
Qed.

(** X12. A run of [build] starts at most eight processes and never runs
    the same command line twice: there is no retry beyond the one fallback
    per stage. *)
Theorem no_command_runs_twice (self : builder) (s : state) :
  exists t,
    trace (snd (build self s)) = trace s ++ t /\
    NoDup (map fst (calls t)) /\
    List.length (calls t) <= 8.
Proof.
  destruct (build_spec self s) as (r & s' & t & E & T & C & W).
  exists t. rewrite E. cbn [snd]. split; [exact T|].
  clear E T W resolve.
  enumerate_runs; cbn; (split; [|lia]);
    repeat (constructor; [cbn; intuition discriminate|]); constructor.
Qed.

(** ** More on what a run changes *)

Lemma check_prerequisites_crx (self : builder) (s : state) :
  crx_file (snd (check_prerequisites self s)) = crx_file s.
Proof.
  unfold check_prerequisites, bind, print, try_except, subprocess_run, ret,
    project_dir_exists_, package_json_exists_. cbn.
  destruct (project_dir_exists (fs s)); cbn; [|reflexivity].
  destruct (package_json_exists (fs s)); cbn; [|reflexivity].
  destruct (spawn _ (ext s, fs s)) as [o1 [x1 f1]].
  destruct o1 as [rc1 out1|[m1|m1|m1]]; cbn;
    [destruct (rc1 =? 0)%Z; cbn| | |]; try reflexivity.
  all: destruct (spawn _ (x1, f1)) as [o2 [x2 f2]].
  all: destruct o2 as [rc2 out2|[m2|m2|m2]]; cbn;
    [destruct (rc2 =? 0)%Z; cbn| | |]; reflexivity.
Qed.

(** A stage only starts processes; when processes leave the world alone,
    so does the stage. *)
Lemma run_stage_world (self : builder) (st : stage) (s : state) :
  exists ok s' t,
    run_stage self st s = (Ok ok, s') /\
    trace s' = trace s ++ t /\
    List.length (calls t) = List.length t /\
    crx_file s' = crx_file s /\
    ((forall i w, snd (spawn i w) = w) -> ext s' = ext s /\ fs s' = fs s).
Proof.
  destruct st; unfold run_stage, install_stage, build_stage, package_stage, bind.
  all: match goal with
       | |- context [run_command ?b ?c ?d ?s0] =>
           destruct (run_command_spec b c d s0) as (o1 & s1 & E1 & T1 & W1 & X1)
       end.
  all: rewrite E1; destruct (succeeded o1) eqn:S1; cbn -[run_command].
  all: try (exists true, s1; eexists;
            split; [reflexivity|]; split; [exact T1|]; split; [reflexivity|];
            split; [exact X1|];
            intros Hq; pose proof (f_equal snd W1) as HW;
            rewrite Hq in HW; cbn in HW; injection HW as H1 H2;
            split; congruence).
  all: match goal with
       | |- context [run_command ?b ?c ?d ?s2] =>
           destruct (run_command_spec b c d s2) as (o2 & s2' & E2 & T2 & W2 & X2)
       end.
  all: rewrite E2; cbn in T2, W2, X2; rewrite T1, <- app_assoc in T2.
  all: exists (succeeded o2), s2'; eexists.
  all: split; [now destruct (succeeded o2)|]; split; [exact T2|];
         split; [reflexivity|]; split; [now rewrite X2|].
  all: intros Hq; pose proof (f_equal snd W1) as HW1;
         pose proof (f_equal snd W2) as HW2;
         rewrite Hq in HW1, HW2; cbn in HW1, HW2;
         injection HW1 as H1 H2; injection HW2 as H3 H4;
         split; congruence.
Qed.

(** The pipeline part of [build] only starts processes. *)
Lemma pipeline_spec (self : builder) (s : state) :
  exists r s' t,
    pipeline self s = (r, s') /\
    trace s' = trace s ++ t /\
    List.length (calls t) = List.length t /\
    crx_file s' = crx_file s /\
    ((forall i w, snd (spawn i w) = w) -> ext s' = ext s /\ fs s' = fs s).
Proof.
  unfold pipeline, bind, print, ret.
  cbn -[check_prerequisites install_stage build_stage package_stage].
  match goal with
  | |- context [check_prerequisites self ?s0] =>
      destruct (check_prerequisites_trace self s0) as (k & T0 & _ & _ & W0);
      assert (X0 := check_prerequisites_crx self s0);
      destruct (check_prerequisites self s0) as [r0 s1]
  end.
  cbn in T0, W0, X0.
  assert (Q0 : (forall i w, snd (spawn i w) = w) -> ext s1 = ext s /\ fs s1 = fs s).
  { intros Hq. destruct k as [|[|k]]; rewrite ?Hq in W0;
      injection W0 as -> ->; now split. }
  assert (R0 : exists t0, trace s1 = trace s ++ t0 /\
                          List.length (calls t0) = List.length t0).
  { eexists. split; [exact T0|]. destruct k as [|[|[|k]]]; reflexivity. }
  clear T0 W0. destruct R0 as (t0 & T0 & L0).
  destruct r0 as [[|]|e];
    cbn -[check_prerequisites install_stage build_stage package_stage].
  2: { exists (Ok false), s1, t0. repeat split; auto; now apply Q0. }
  2: { exists (Raise e), s1, t0. repeat split; auto; now apply Q0. }
  change (install_stage self) with (run_stage self Install).
  change (build_stage self) with (run_stage self Build).
  change (package_stage self) with (run_stage self Package).
  match goal with
  | |- context [run_stage self Install ?s0] =>
      destruct (run_stage_world self Install s0) as (ok1 & s2 & t1 & E1 & T1 & L1 & X1 & Q1)
  end.
  rewrite E1. cbn in T1, X1, Q1. rewrite T0, <- !app_assoc in T1.
  assert (Q01 : (forall i w, snd (spawn i w) = w) -> ext s2 = ext s /\ fs s2 = fs s).
  { intros Hq. destruct (Q0 Hq), (Q1 Hq). split; congruence. }
  destruct ok1; cbn -[run_stage].
  2: { exists (Ok false), s2, (t0 ++ t1).
       split; [reflexivity|]. split; [exact T1|].
       split; [rewrite !calls_app, !length_app; lia|].
       split; [congruence|exact Q01]. }
  match goal with
  | |- context [run_stage self Build ?s0] =>
      destruct (run_stage_world self Build s0) as (ok2 & s3 & t2 & E2 & T2 & L2 & X2 & Q2)
  end.
  rewrite E2. cbn in T2, X2, Q2. rewrite T1, <- !app_assoc in T2.
  assert (Q02 : (forall i w, snd (spawn i w) = w) -> ext s3 = ext s /\ fs s3 = fs s).
  { intros Hq. destruct (Q01 Hq), (Q2 Hq). split; congruence. }
  destruct ok2; cbn -[run_stage].
  2: { exists (Ok false), s3, (t0 ++ t1 ++ t2).
       split; [reflexivity|]. split; [exact T2|].
       split; [rewrite !calls_app, !length_app; lia|].
       split; [congruence|exact Q02]. }
  match goal with
  | |- context [run_stage self Package ?s0] =>
      destruct (run_stage_world self Package s0) as (ok3 & s4 & t3 & E3 & T3 & L3 & X3 & Q3)
  end.
  rewrite E3. cbn in T3, X3, Q3. rewrite T2, <- !app_assoc in T3.
  assert (Q03 : (forall i w, snd (spawn i w) = w) -> ext s4 = ext s /\ fs s4 = fs s).
  { intros Hq. destruct (Q02 Hq), (Q3 Hq). split; congruence. }
  exists (Ok ok3), s4, (t0 ++ t1 ++ t2 ++ t3).
  split; [now destruct ok3|]. split; [exact T3|].
  split; [rewrite !calls_app, !length_app; lia|].
  split; [congruence|exact Q03].
Qed.

Lemma rename_zip_file_frame (self : builder) (s : state) :
  exists z,
    fst (rename_zip_file self s) = Ok z /\
    console (snd (rename_zip_file self s)) = console s /\
    ext (snd (rename_zip_file self s)) = ext s /\
    crx_file (snd (rename_zip_file self s)) = crx_file s.
Proof.
  destruct (output (fs s)) as [d|] eqn:H.
  - destruct (first_archive d) as [e|] eqn:Hf.
    + destruct (String.eqb (name e) TARGET) eqn:Hn.
      * apply String.eqb_eq in Hn.
        rewrite (rename_zip_file_in_place self s d e H Hf Hn). cbn. eauto.
      * apply String.eqb_neq in Hn.
        rewrite (rename_zip_file_moves self s d e H Hf Hn). cbn. eauto.
    + rewrite (rename_zip_file_no_archive self s d H Hf). cbn. eauto.
  - rewrite (rename_zip_file_no_output self s H). cbn. eauto.
Qed.

Lemma find_crx_file_frame (self : builder) (s : state) :
  exists c,
    fst (find_crx_file self s) = Ok c /\
    fs (snd (find_crx_file self s)) = fs s /\
    trace (snd (find_crx_file self s)) = trace s /\
    console (snd (find_crx_file self s)) = console s /\
    ext (snd (find_crx_file self s)) = ext s.
Proof.
  destruct (output (fs s)) as [d|] eqn:H.
  - destruct (find (fun x => endswith (name x) ".crx") d) as [e|] eqn:Hf.
    + rewrite (find_crx_file_some self s d e H Hf). cbn. eauto 10.
    + rewrite (find_crx_file_none self s d H Hf). cbn. eauto 10.
  - rewrite (find_crx_file_no_output self s H). cbn. eauto 10.
Qed.

(** What the file system holds after [rename_zip_file] depends on the file
    system only. *)
Lemma rename_zip_file_fs (self : builder) (s1 s2 : state) :
  fs s1 = fs s2 ->
  fs (snd (rename_zip_file self s1)) = fs (snd (rename_zip_file self s2)).
Proof.
  intros Hfs. destruct (output (fs s1)) as [d|] eqn:H1.
  - assert (H2 : output (fs s2) = Some d) by now rewrite <- Hfs.
    destruct (first_archive d) as [e|] eqn:Hf.
    + destruct (String.eqb (name e) TARGET) eqn:Hn.
      * apply String.eqb_eq in Hn.
        now rewrite (rename_zip_file_in_place self s1 d e H1 Hf Hn),
          (rename_zip_file_in_place self s2 d e H2 Hf Hn).
      * apply String.eqb_neq in Hn.
        rewrite (rename_zip_file_moves self s1 d e H1 Hf Hn),
          (rename_zip_file_moves self s2 d e H2 Hf Hn).
        cbn. now rewrite Hfs.
    + now rewrite (rename_zip_file_no_archive self s1 d H1 Hf),
        (rename_zip_file_no_archive self s2 d H2 Hf).
  - assert (H2 : output (fs s2) = None) by now rewrite <- Hfs.
    now rewrite (rename_zip_file_no_output self s1 H1),
      (rename_zip_file_no_output self s2 H2).
Qed.

Lemma only_prints_ret {A} (a : A) : only_prints (ret a).
Proof. intros s. exists a, []. rewrite app_nil_r. now destruct s. Qed.

Lemma only_prints_print (line : string) : only_prints (print line).
Proof. intros s. now exists tt, [line]. Qed.

Lemma only_prints_bind {A B} (m : M A) (k : A -> M B) :
  only_prints m -> (forall a, only_prints (k a)) -> only_prints (bind m k).
Proof.
  intros Hm Hk s. destruct (Hm s) as (a & l1 & E1).
  destruct (Hk a (mkState (ext s) (fs s) (trace s) (console s ++ l1) (crx_file s)))
    as (b & l2 & E2).
  exists b, (l1 ++ l2). unfold bind. rewrite E1, E2. cbn. now rewrite app_assoc.
Qed.

Ltac prove_only_prints :=
  repeat first
    [ apply only_prints_print
    | apply only_prints_ret
    | apply only_prints_bind; [|intros ?]
    | match goal with
      | |- only_prints (match ?x with _ => _ end) => destruct x
      end ].

(** The last part of [build] changes the file system and the trace as
    [rename_zip_file] does, and otherwise only prints. *)
Lemma report_frame (self : builder) (s : state) :
  let s1 := snd (rename_zip_file self s) in
  let s' := snd (report self s) in
  fs s' = fs s1 /\
  trace s' = trace s1 /\
  ext s' = ext s /\
  crx_file s' = crx_file (snd (find_crx_file self s1)) /\
  exists lines, console s' = console s ++ lines.
Proof.
  cbv zeta.
  destruct (rename_zip_file_frame self s) as (z & Ez & Cz & Xz & _).
  destruct (find_crx_file_frame self (snd (rename_zip_file self s)))
    as (c & Ec & Fc & Tc & Cc & Xc).
  remember (report self s) as R eqn:HR.
  unfold report in HR. unfold bind at 1 in HR.
  destruct (rename_zip_file self s) as [rz s1]. cbn [fst snd] in *. subst rz.
  unfold bind at 1 in HR.
  destruct (find_crx_file self s1) as [rc s2]. cbn [fst snd] in *. subst rc.
  match type of HR with
  | _ = ?m s2 =>
      assert (Hop : only_prints m) by prove_only_prints;
      destruct (Hop s2) as (a & lines & Hm); rewrite Hm in HR
  end.
  subst R. cbn [fst snd fs trace ext crx_file console].
  repeat split; try congruence.
  exists lines. congruence.
Qed.


(** X14. The last part of [build] (rename, search, summary) starts no
    process and changes the file system and the trace exactly as
    [rename_zip_file] alone does; besides that it sets [self.crx_file] as
    [find_crx_file] does after the rename, and appends lines to the
    console. *)
Theorem report_only_renames (self : builder) (s : state) :
  let s1 := snd (rename_zip_file self s) in
  let s' := snd (report self s) in
  fs s' = fs s1 /\
  trace s' = trace s1 /\
  ext s' = ext s /\
  crx_file s' = crx_file (snd (find_crx_file self s1)) /\
  exists lines, console s' = console s ++ lines.
Proof. exact (report_frame self s). Qed.


End Orchestrator.

Arguments check_prerequisites {Ext} spawn self _.
Arguments run_command {Ext} spawn self cmd description _.
Arguments rename_zip_file {Ext} self _.
Arguments find_crx_file {Ext} self _.
Arguments report {Ext} self _.
Arguments pipeline {Ext} spawn self _.
Arguments build {Ext} spawn self _.
Arguments main {Ext} spawn getcwd resolve sys_argv s.
Arguments main_start {Ext} s.

(** ** Runs on the machines above *)

Example healthy_run :
  let r := main spawn_healthy work_dir resolve_in_work ["build_plugin.py"] (fresh fs_project) in
  fst r = 0%Z /\
  calls (trace (snd r)) =
    [(pnpm_version, true); (primary Install, true); (primary Build, true);
     (primary Package, true)] /\
  output (fs (snd r)) =
    Some [mkEntry "chrome-mv3" ""; mkEntry TARGET "PK"].
Proof. vm_compute. repeat split; reflexivity. Qed.

Example npm_only_run :
  let r := main spawn_npm_only work_dir resolve_in_work ["build_plugin.py"; "plugin"]
             (fresh fs_project) in
  fst r = 0%Z /\
  calls (trace (snd r)) =
    [(pnpm_version, false); (npm_version, true);
     (primary Install, false); (fallback Install, true);
     (primary Build, false); (fallback Build, true);
     (primary Package, false); (fallback Package, true)].
Proof. vm_compute. repeat split; reflexivity. Qed.

Example failed_install_run :
  let r := main spawn_install_fails work_dir resolve_in_work ["build_plugin.py"]
             (fresh fs_project) in
  fst r = 1%Z /\
  calls (trace (snd r)) =
    [(pnpm_version, true); (primary Install, false); (fallback Install, false)].
Proof. vm_compute. repeat split; reflexivity. Qed.

Example rename_with_stale_target :
  let r := rename_zip_file project (fresh (fs_with_output dir_stale_target)) in
  fst r = Ok (Some (output_dir project // TARGET)) /\
  output (fs (snd r)) =
    Some [mkEntry TARGET "PK-new"; mkEntry "bar.zip" "PK-bar";
          mkEntry "copilot.crx" "Cr24"] /\
  trace (snd r) =
    [Unlink (output_dir project // TARGET);
     Rename (output_dir project // "foo.zip") (output_dir project // TARGET)].
Proof. vm_compute. repeat split; reflexivity. Qed.

Example rename_single_archive :
  let r := rename_zip_file project (fresh (fs_with_output dir_one_zip)) in
  output (fs (snd r)) =
    Some [mkEntry "chrome-mv3" ""; mkEntry TARGET "PK-new";
          mkEntry "copilot.crx" "Cr24"] /\
  trace (snd r) =
    [Rename (output_dir project // "foo.zip") (output_dir project // TARGET)].
Proof. vm_compute. split; reflexivity. Qed.

Example rename_target_first :
  rename_zip_file project (fresh (fs_with_output dir_target_first)) =
  (Ok (Some (output_dir project // TARGET)), fresh (fs_with_output dir_target_first)).
Proof. reflexivity. Qed.

(** ** The claims on concrete runs *)

Lemma missing_manifest_aborts_witness :
  project_dir_exists (fs (fresh fs_no_manifest)) = true /\
  package_json_exists (fs (fresh fs_no_manifest)) = false /\
  fst (main spawn_healthy work_dir resolve_in_work ["build_plugin.py"]
         (fresh fs_no_manifest)) = 1%Z /\
  trace (snd (main spawn_healthy work_dir resolve_in_work ["build_plugin.py"]
                (fresh fs_no_manifest))) = [].
Proof.
  split; [reflexivity|]. split; [reflexivity|].
  destruct (missing_manifest_aborts unit spawn_healthy work_dir resolve_in_work
              ["build_plugin.py"] (fresh fs_no_manifest) eq_refl eq_refl)
    as (_ & _ & Hcode & Htrace & _).
  split; [exact Hcode|exact Htrace].
Defined.

Lemma dir_stale_target_NoDup : NoDup (map name dir_stale_target).
Proof.
  repeat constructor; cbn; intros H;
    repeat (destruct H as [H|H]; [discriminate H|]); exact H.
Defined.


Lemma no_archive_no_action_witness :
  (forall d e, output (fs (fresh (fs_with_output dir_no_artifacts))) = Some d ->
               In e d -> endswith (name e) ".zip" = false) /\
  rename_zip_file project (fresh (fs_with_output dir_no_artifacts)) =
    (Ok None, fresh (fs_with_output dir_no_artifacts)) /\
  find_crx_file project (fresh (fs_with_output dir_no_artifacts)) =
    (Ok None, fresh (fs_with_output dir_no_artifacts)).
Proof.
  assert (Hzip : forall d e,
             output (fs (fresh (fs_with_output dir_no_artifacts))) = Some d ->
             In e d -> endswith (name e) ".zip" = false).
  { intros d e [= <-] [<-|[]]. reflexivity. }
  assert (Hcrx : forall d e,
             output (fs (fresh (fs_with_output dir_no_artifacts))) = Some d ->
             In e d -> endswith (name e) ".crx" = false).
  { intros d e [= <-] [<-|[]]. reflexivity. }
  split; [exact Hzip|].
  destruct (no_archive_no_action unit project
              (fresh (fs_with_output dir_no_artifacts)) Hzip)
    as (Hrename & _ & Hfind).
  split; [exact Hrename|exact (Hfind Hcrx)].
Defined.

Lemma rename_leaves_the_rest_witness :
  output (fs (fresh (fs_with_output dir_stale_target))) = Some dir_stale_target /\
  exists r s' d',
    rename_zip_file project (fresh (fs_with_output dir_stale_target)) = (Ok r, s') /\
    output (fs s') = Some d' /\
    lookup "bar.zip" d' = Some "PK-bar" /\
    lookup "copilot.crx" d' = Some "Cr24".
Proof.
  split; [reflexivity|].
  destruct (rename_leaves_the_rest unit project
              (fresh (fs_with_output dir_stale_target)) dir_stale_target eq_refl)
    as (r & s' & d' & t & Hrun & Hout & _ & _ & _ & _ & _ & _ & _ & _ & Hrest & _).
  exists r, s', d'. split; [exact Hrun|]. split; [exact Hout|].
  split.
  - rewrite Hrest; [reflexivity|].
    intros [H|(e & He & Hn)]; [discriminate H|].
    injection He as <-. discriminate Hn.
  - rewrite Hrest; [reflexivity|].
    intros [H|(e & He & Hn)]; [discriminate H|].
    injection He as <-. discriminate Hn.
Defined.


(** ** A version query that does not answer in time *)

(** C4. The project directory and [package.json] exist and [pnpm --version]
    does not finish within five seconds, so [subprocess.run] raises
    [TimeoutExpired]: the exception leaves [check_prerequisites] and [build],
    neither of which returns a boolean, and [main] ends through the
    interpreter's handling of an uncaught exception. *)
Theorem version_query_timeout_escapes :
  let e := TimeoutExpired "Command '['pnpm', '--version']' timed out after 5 seconds" in
  fst (check_prerequisites spawn_pnpm_hangs project (fresh fs_project)) = Raise e /\
  fst (build spawn_pnpm_hangs project (fresh fs_project)) = Raise e /\
  calls (trace (snd (build spawn_pnpm_hangs project (fresh fs_project)))) =
    [(pnpm_version, false)].
Proof. vm_compute. repeat split; reflexivity. Qed.

(** C5. The project directory and [package.json] exist, [pnpm --version]
    hangs and [npm --version] would exit with status 0 at once: the check
    does not return [True]; it returns nothing, the timeout of the first
    query leaves it as an exception, [npm] is never asked and no diagnostic
    about a missing precondition is printed. *)
Theorem hanging_pnpm_hides_working_npm :
  let s := fresh fs_project in
  project_dir_exists (fs s) = true /\
  package_json_exists (fs s) = true /\
  succeeded (fst (spawn_pnpm_hangs (query_inv npm_version) (ext s, fs s))) = true /\
  (forall b, fst (check_prerequisites spawn_pnpm_hangs project s) <> Ok b) /\
  trace (snd (check_prerequisites spawn_pnpm_hangs project s)) =
    [Run (query_inv pnpm_version)
       (Raised (TimeoutExpired
                  "Command '['pnpm', '--version']' timed out after 5 seconds"))] /\
  console (snd (check_prerequisites spawn_pnpm_hangs project s)) =
    ["🔍 检查前置条件..."].
Proof.
  vm_compute. repeat split; try reflexivity. intros b H. discriminate H.
Qed.

(** ** The further properties on concrete runs *)


Lemma check_prerequisites_true_iff_witness :
  (forall e,
     fst (spawn_npm_only (query_inv pnpm_version) (tt, fs_project)) = Raised e ->
     exists m, e = FileNotFoundError m) /\
  (forall e,
     fst (spawn_npm_only (query_inv npm_version) (tt, fs_project)) = Raised e ->
     exists m, e = FileNotFoundError m) /\
  fst (check_prerequisites spawn_npm_only project (fresh fs_project)) = Ok true.
Proof.
  assert (H1 : forall e,
             fst (spawn_npm_only (query_inv pnpm_version) (tt, fs_project)) = Raised e ->
             exists m, e = FileNotFoundError m).
  { intros e H. cbn in H. injection H as <-. eexists. reflexivity. }
  assert (H2 : forall e,
             fst (spawn_npm_only (query_inv npm_version) (tt, fs_project)) = Raised e ->
             exists m, e = FileNotFoundError m).
  { intros e H. cbn in H. discriminate H. }
  split; [exact H1|]. split; [exact H2|].
  destruct (check_prerequisites_true_iff unit spawn_npm_only project (fresh fs_project)
              H1 (fun _ => H2)) as (b & Hb & Hiff).
  rewrite Hb. f_equal. apply Hiff.
  split; [reflexivity|]. split; [reflexivity|]. right. reflexivity.
Defined.

Lemma no_package_manager_aborts_witness :
  project_dir_exists (fs (fresh fs_project)) = true /\
  package_json_exists (fs (fresh fs_project)) = true /\
  fst (main spawn_no_tools work_dir resolve_in_work ["build_plugin.py"]
         (fresh fs_project)) = 1%Z /\
  calls (trace (snd (main spawn_no_tools work_dir resolve_in_work ["build_plugin.py"]
                       (fresh fs_project)))) =
    [(pnpm_version, false); (npm_version, false)].
Proof.
  split; [reflexivity|]. split; [reflexivity|].
  destruct (no_package_manager_aborts unit spawn_no_tools work_dir resolve_in_work
              ["build_plugin.py"] (fresh fs_project) eq_refl eq_refl eq_refl
              (fun e H => ex_intro _ _ (eq_sym (f_equal
                 (fun o => match o with Raised x => x | _ => e end) H)))
              eq_refl
              (fun e H => ex_intro _ _ (eq_sym (f_equal
                 (fun o => match o with Raised x => x | _ => e end) H))))
    as (Hcode & Htrace & _).
  split; [exact Hcode|]. rewrite Htrace. reflexivity.
Defined.


Lemma rename_loses_at_most_the_stale_target_witness :
  output (fs (fresh (fs_with_output dir_stale_target))) = Some dir_stale_target /\
  NoDup (map name dir_stale_target) /\
  exists d',
    output (fs (snd (rename_zip_file project (fresh (fs_with_output dir_stale_target)))))
      = Some d' /\
    List.length d' + 1 = 4.
Proof.
  split; [reflexivity|]. split; [exact dir_stale_target_NoDup|].
  exact (rename_loses_at_most_the_stale_target unit project
           (fresh (fs_with_output dir_stale_target)) dir_stale_target eq_refl
           dir_stale_target_NoDup).
Defined.

